(** * vm.py: remote control of a UTM virtual machine over SSH and xdotool

    A shallow embedding of [src/vm.py] (class [VM] and exception [VMError])
    and the properties of its operations.

    Conventions of the embedding.
    - Python [str] values are Rocq [string]s whose characters are the code
      points below 256; [strip] and [lower] follow Python's tables on that
      range.  Python [int] is [Z].  Python [bytes] is [list byte].
    - The collaborators outside the repository (paramiko, subprocess, the
      clock, the remote machine) are an environment [Env] that answers each
      request as a function of the whole interaction history so far; the
      history is the list of events the program has issued, oldest first.
    - A method is a computation [M A]: it takes the state (the controller
      object and the history) and gives an outcome, a value or a raised
      exception, together with the state it leaves behind.  Mutations made
      before an exception is raised stay, as in Python. *)

From Stdlib Require Import ZArith NArith List String Ascii Bool Lia.
From Stdlib Require Import Strings.Byte.
From Stdlib Require Import DecimalString DecimalZ DecimalPos.
Import ListNotations.
Local Open Scope string_scope.

(** * Part one: the embedding *)

(** ** Python text primitives used by the module *)

Module Text.

Definition code (c : ascii) : N := N_of_ascii c.

(** [str.isspace] on one character (code points below 256):
    TAB..CR, FS..US, space, NEL and NBSP. *)
Definition is_space (c : ascii) : bool :=
  let n := code c in
  ((9 <=? n) && (n <=? 13) || (28 <=? n) && (n <=? 32)
   || (n =? 133) || (n =? 160))%N.

Fixpoint lstrip (s : string) : string :=
  match s with
  | EmptyString => EmptyString
  | String c t => if is_space c then lstrip t else s
  end.

Fixpoint rstrip (s : string) : string :=
  match s with
  | EmptyString => EmptyString
  | String c t =>
      match rstrip t with
      | EmptyString => if is_space c then EmptyString else String c EmptyString
      | t' => String c t'
      end
  end.

(** [s.strip()] *)
Definition strip (s : string) : string := rstrip (lstrip s).

(** [str.lower] on one character: A..Z, and the Latin-1 capitals
    U+00C0..U+00DE except the multiplication sign U+00D7. *)
Definition lower_char (c : ascii) : ascii :=
  let n := code c in
  if ((65 <=? n) && (n <=? 90)
      || (192 <=? n) && (n <=? 222) && negb (n =? 215))%N
  then ascii_of_N (n + 32) else c.

Fixpoint lower (s : string) : string :=
  match s with
  | EmptyString => EmptyString
  | String c t => String (lower_char c) (lower t)
  end.

Fixpoint startswith (p s : string) : bool :=
  match p, s with
  | EmptyString, _ => true
  | String _ _, EmptyString => false
  | String a p', String b s' => Ascii.eqb a b && startswith p' s'
  end.

(** [needle in hay] for strings *)
Fixpoint contains (needle hay : string) : bool :=
  startswith needle hay
  || match hay with
     | EmptyString => false
     | String _ t => contains needle t
     end.

(** [str(n)] for an int, as an f-string field formats it *)
Definition str_of_int (n : Z) : string := NilZero.string_of_int (Z.to_int n).

Definition nl : string := String (ascii_of_N 10) EmptyString.

End Text.

(** ** [shlex.quote] *)

Module Shlex.

Definition squote : ascii := "'"%char.
Definition dquote : ascii := ascii_of_N 34.

(** A character outside [[^\w@%+=:,./-]] (ASCII word characters). *)
Definition is_safe (c : ascii) : bool :=
  let n := Text.code c in
  ((48 <=? n) && (n <=? 57) || (65 <=? n) && (n <=? 90)
   || (97 <=? n) && (n <=? 122) || (n =? 95)
   || (n =? 64) || (n =? 37) || (n =? 43) || (n =? 61) || (n =? 58)
   || (n =? 44) || (n =? 46) || (n =? 47) || (n =? 45))%N.

Fixpoint all_safe (s : string) : bool :=
  match s with
  | EmptyString => true
  | String c t => is_safe c && all_safe t
  end.

(** The five characters that replace one single quote: ['"'"'] *)
Definition quote_escape : string :=
  String squote (String dquote (String squote (String dquote
    (String squote EmptyString)))).

(** [s.replace("'", ...)] *)
Fixpoint escape_squotes (s : string) : string :=
  match s with
  | EmptyString => EmptyString
  | String c t =>
      if Ascii.eqb c squote then quote_escape ++ escape_squotes t
      else String c (escape_squotes t)
  end.

Definition quote (s : string) : string :=
  match s with
  | EmptyString => "''"
  | _ => if all_safe s then s
         else String squote (escape_squotes s) ++ String squote EmptyString
  end.

End Shlex.

(** ** [base64.b64decode] (non-strict mode, as [screenshot] calls it)

    The decoder follows CPython's [binascii.a2b_base64] with
    [strict_mode] off, which [base64.b64decode] calls after encoding its
    [str] argument to ASCII. *)

Module Base64.

(** The decoding table: the sextet of an alphabet character. *)
Definition sextet (c : ascii) : option N :=
  let n := Text.code c in
  if ((65 <=? n) && (n <=? 90))%N then Some (n - 65)%N
  else if ((97 <=? n) && (n <=? 122))%N then Some (n - 71)%N
  else if ((48 <=? n) && (n <=? 57))%N then Some (n + 4)%N
  else if (n =? 43)%N then Some 62%N
  else if (n =? 47)%N then Some 63%N
  else None.

Definition pad : ascii := "="%char.

Definition byte_of_N (n : N) : byte :=
  match Byte.of_N (n mod 256) with
  | Some b => b
  | None => x00
  end.

(** The decoder's loop over the input.  [quad_pos] is the position in the
    current group of four, [leftchar] the bits not yet written, [pads] the
    padding characters seen since the last data character.  Characters
    outside the alphabet are skipped; a padding sequence that completes a
    group ends the input; input that ends inside a group is an error. *)
Fixpoint a2b (s : string) (quad_pos : nat) (leftchar : N) (pads : nat)
  : option (list byte) :=
  match s with
  | EmptyString => if Nat.eqb quad_pos 0 then Some [] else None
  | String c t =>
      if Ascii.eqb c pad then
        if Nat.leb 2 quad_pos then
          if Nat.leb 4 (quad_pos + S pads) then Some []
          else a2b t quad_pos leftchar (S pads)
        else a2b t quad_pos leftchar pads
      else
        match sextet c with
        | None => a2b t quad_pos leftchar pads
        | Some v =>
            match quad_pos with
            | 0%nat => a2b t 1%nat v 0%nat
            | 1%nat =>
                option_map
                  (cons (byte_of_N (N.lor (N.shiftl leftchar 2) (N.shiftr v 4))))
                  (a2b t 2%nat (N.land v 15) 0%nat)
            | 2%nat =>
                option_map
                  (cons (byte_of_N (N.lor (N.shiftl leftchar 4) (N.shiftr v 2))))
                  (a2b t 3%nat (N.land v 3) 0%nat)
            | _ =>
                option_map
                  (cons (byte_of_N (N.lor (N.shiftl leftchar 6) v)))
                  (a2b t 0%nat 0%N 0%nat)
            end
        end
  end.

Fixpoint is_ascii (s : string) : bool :=
  match s with
  | EmptyString => true
  | String c t => (Text.code c <? 128)%N && is_ascii t
  end.

(** [base64.b64decode(s)] on a [str]: [inl] is the name of the exception
    raised ([ValueError] for a character outside ASCII, [binascii.Error]
    for input that ends inside a group of four). *)
Definition b64decode (s : string) : string + list byte :=
  if is_ascii s then
    match a2b s 0%nat 0%N 0%nat with
    | Some bs => inr bs
    | None => inl "binascii.Error"
    end
  else inl "ValueError".

(** The encoding the remote [base64] tool writes (one group of four
    characters for every three bytes, padded with [=]). *)
Definition alphabet (n : N) : ascii :=
  if (n <? 26)%N then ascii_of_N (n + 65)
  else if (n <? 52)%N then ascii_of_N (n + 71)
  else if (n <? 62)%N then ascii_of_N (n - 4)
  else if (n =? 62)%N then "+"%char
  else "/"%char.

Definition enc1 (a : N) : ascii := alphabet (N.shiftr a 2).
Definition enc2 (a b : N) : ascii :=
  alphabet (N.lor (N.shiftl (N.land a 3) 4) (N.shiftr b 4)).
Definition enc3 (b c : N) : ascii :=
  alphabet (N.lor (N.shiftl (N.land b 15) 2) (N.shiftr c 6)).
Definition enc4 (c : N) : ascii := alphabet (N.land c 63).

Fixpoint b64encode (bs : list byte) : string :=
  match bs with
  | [] => EmptyString
  | [a] =>
      let a := Byte.to_N a in
      String (enc1 a) (String (enc2 a 0) (String pad (String pad EmptyString)))
  | [a; b] =>
      let a := Byte.to_N a in
      let b := Byte.to_N b in
      String (enc1 a) (String (enc2 a b) (String (enc3 b 0)
        (String pad EmptyString)))
  | a :: b :: c :: rest =>
      let a := Byte.to_N a in
      let b := Byte.to_N b in
      let c := Byte.to_N c in
      String (enc1 a) (String (enc2 a b) (String (enc3 b c)
        (String (enc4 c) (b64encode rest))))
  end.

End Base64.

(** ** Exceptions, the environment and the method monad *)

(** [VMError] is the module's own exception class (it has no subclass);
    every other exception comes from a library and is kept by its name. *)
Inductive exn : Type :=
| VMError (msg : string)
| Foreign (name : string).

Inductive outcome (A : Type) : Type :=
| Ret (a : A)
| Raise (e : exn).
Arguments Ret {A} a.
Arguments Raise {A} e.

(** A [paramiko.SSHClient] object: whether its transport is open. *)
Record SSHClient : Type := { transport_open : bool }.

(** The fields [__init__] sets. *)
Record VM : Type := {
  name : string;
  ssh_host : string;
  ssh_user : string;
  ssh_key : string;
  ssh : option SSHClient
}.

(** What the program asks of its collaborators. *)
Inductive Event : Type :=
| EvLoadHostKeys
| EvConnect (hostname username key_filename : string) (timeout : Z)
| EvClose
| EvExec (cmd : string) (timeout : Z)
| EvSubprocess (argv : list string) (timeout : Z)
| EvTime.

(** The answer to [exec_command] followed by [recv_exit_status] and the
    reads of the two streams: the command ran to an exit status, or a
    library call raised. *)
Inductive ExecReply : Type :=
| ExecDone (exit_code : Z) (stdout stderr : string)
| ExecRaise (name : string).

(** The answer to [subprocess.run]: a completed process, or an exception
    from starting or awaiting it (a missing binary, a timeout). *)
Inductive ProcReply : Type :=
| ProcDone (returncode : Z) (stdout stderr : string)
| ProcRaise (name : string).

Record Env : Type := {
  (** [str(Path(p).expanduser())] *)
  expanduser : string -> string;
  (** [load_system_host_keys()]: [Some e] when it raises [e] *)
  load_host_keys_reply : list Event -> option string;
  (** [SSHClient.connect(...)]: [Some e] when it raises [e] *)
  connect_reply : list Event -> string -> string -> string -> Z -> option string;
  exec_reply : list Event -> SSHClient -> string -> Z -> ExecReply;
  subprocess_reply : list Event -> list string -> Z -> ProcReply;
  (** [int(time.time() * 1000)] *)
  time_reply : list Event -> Z
}.

Record State : Type := {
  self : VM;
  hist : list Event
}.

Definition M (A : Type) : Type := State -> outcome A * State.

Definition ret {A} (a : A) : M A := fun s => (Ret a, s).

Definition bind {A B} (m : M A) (k : A -> M B) : M B :=
  fun s =>
    match m s with
    | (Ret a, s') => k a s'
    | (Raise e, s') => (Raise e, s')
    end.

Definition raise {A} (e : exn) : M A := fun s => (Raise e, s).

Declare Scope vm_scope.
Delimit Scope vm_scope with vm.
Notation "x <- m ;; k" := (bind m (fun x => k))
  (at level 61, m at next level, right associativity) : vm_scope.
Notation "m ;; k" := (bind m (fun _ => k))
  (at level 61, right associativity) : vm_scope.
Local Open Scope vm_scope.

(** [try: body  except VMError: handler] *)
Definition try_except_VMError {A} (body : M A) (handler : M A) : M A :=
  fun s =>
    match body s with
    | (Raise (VMError _), s') => handler s'
    | r => r
    end.

(** [for _ in range(n): body] *)
Fixpoint for_range (n : nat) (body : M unit) : M unit :=
  match n with
  | O => ret tt
  | S n' => body ;; for_range n' body
  end.

Definition get_ssh : M (option SSHClient) := fun s => (Ret (ssh (self s)), s).

Definition set_ssh (c : option SSHClient) : M unit :=
  fun s =>
    let v := self s in
    (Ret tt,
     {| self := {| name := name v; ssh_host := ssh_host v;
                   ssh_user := ssh_user v; ssh_key := ssh_key v; ssh := c |};
        hist := hist s |}).

Definition get_self : M VM := fun s => (Ret (self s), s).

(** The state with one more event in its history. *)
Definition record (ev : Event) (s : State) : State :=
  {| self := self s; hist := hist s ++ [ev] |}.

(** Hand a request to the environment: the answer is computed from the
    history before the request, and the request is appended to it. *)
Definition ask {A} (ev : Event) (answer : list Event -> A) : M A :=
  fun s => (Ret (answer (hist s)), record ev s).

(** [d.get(k, default)] on a dict literal, kept as its list of items *)
Fixpoint dict_get (d : list (string * string)) (k default : string) : string :=
  match d with
  | [] => default
  | (k', v) :: d' => if String.eqb k k' then v else dict_get d' k default
  end.

(** ** The class [VM] *)

Section VMClass.

Variable env : Env.

(** [__init__]: no session yet. *)
Definition __init__ (name ssh_host ssh_user ssh_key : string) : VM :=
  {| name := name; ssh_host := ssh_host; ssh_user := ssh_user;
     ssh_key := expanduser env ssh_key; ssh := None |}.

(** [connect]: the new client object is stored in [self.ssh] first, then
    the host keys are loaded and the connection is attempted. *)
Definition connect : M unit :=
  set_ssh (Some {| transport_open := false |}) ;;
  r <- ask EvLoadHostKeys (load_host_keys_reply env) ;;
  match r with
  | Some e => raise (Foreign e)
  | None =>
      v <- get_self ;;
      r <- ask (EvConnect (ssh_host v) (ssh_user v) (ssh_key v) 10)
               (fun h => connect_reply env h (ssh_host v) (ssh_user v) (ssh_key v) 10) ;;
      match r with
      | Some e => raise (Foreign e)
      | None => set_ssh (Some {| transport_open := true |})
      end
  end.

(** [disconnect].  An [SSHClient] object is always truthy, so
    [if self.ssh] tests the field against [None]. *)
Definition disconnect : M unit :=
  c <- get_ssh ;;
  match c with
  | Some _ => ask EvClose (fun _ => tt) ;; set_ssh None
  | None => ret tt
  end.

Definition _run (cmd : string) (timeout : Z) : M string :=
  c <- get_ssh ;;
  match c with
  | None => raise (VMError "Not connected")
  | Some c =>
      r <- ask (EvExec cmd timeout) (fun h => exec_reply env h c cmd timeout) ;;
      match r with
      | ExecRaise e => raise (Foreign e)
      | ExecDone exit_code out err =>
          if negb (exit_code =? 0)%Z then
            raise (VMError ("Command failed (exit " ++ Text.str_of_int exit_code
                            ++ "): " ++ Text.strip err))
          else ret out
      end
  end.

Definition probe_cmd (disp : string) : string :=
  "DISPLAY=" ++ disp ++ " xdotool getdisplaygeometry".

(** The loop of [_get_display] over the displays still to try. *)
Fixpoint probe_displays (candidates : list string) : M string :=
  match candidates with
  | [] => ret ":0"
  | disp :: rest =>
      try_except_VMError
        (_run (probe_cmd disp) 2 ;; ret disp)
        (probe_displays rest)
  end.

Definition _get_display : M string := probe_displays [":0"; ":1"].

Definition indent12 : string := "            ".
Definition indent8 : string := "        ".

Definition screenshot_cmd (disp : string) (ts : Z) : string :=
  let shot := "/tmp/shot_" ++ Text.str_of_int ts ++ ".png" in
  Text.nl ++ indent12 ++ "rm -f " ++ shot
  ++ Text.nl ++ indent12 ++ "DISPLAY=" ++ disp ++ " xdotool sync"
  ++ Text.nl ++ indent12 ++ "sleep 0.1"
  ++ Text.nl ++ indent12 ++ "DISPLAY=" ++ disp ++ " scrot -o " ++ shot
  ++ Text.nl ++ indent12 ++ "base64 " ++ shot
  ++ Text.nl ++ indent12 ++ "rm -f " ++ shot
  ++ Text.nl ++ indent8.

Definition screenshot : M (list byte) :=
  ts <- ask EvTime (time_reply env) ;;
  disp <- _get_display ;;
  b64 <- _run (screenshot_cmd disp ts) 15 ;;
  match Base64.b64decode (Text.strip b64) with
  | inr bytes => ret bytes
  | inl e => raise (Foreign e)
  end.

Definition move_cmd (disp : string) (x y : Z) : string :=
  "DISPLAY=" ++ disp ++ " xdotool mousemove " ++ Text.str_of_int x
  ++ " " ++ Text.str_of_int y.

Definition move_mouse (x y : Z) : M unit :=
  disp <- _get_display ;;
  _run (move_cmd disp x y) 10 ;;
  ret tt.

Definition button_codes : list (string * string) :=
  [("left", "1"); ("right", "3"); ("middle", "2")].

Definition click_cmd (disp btn : string) : string :=
  "DISPLAY=" ++ disp ++ " xdotool click " ++ btn.

Definition click (button : string) (clicks : Z) : M unit :=
  disp <- _get_display ;;
  let btn := dict_get button_codes button "1" in
  for_range (Z.to_nat clicks) (_run (click_cmd disp btn) 10 ;; ret tt).

Definition type_cmd (disp escaped : string) : string :=
  "DISPLAY=" ++ disp ++ " xdotool type --clearmodifiers " ++ escaped.

Definition type_text (text : string) : M unit :=
  disp <- _get_display ;;
  let escaped := Shlex.quote text in
  _run (type_cmd disp escaped) 10 ;;
  ret tt.

Definition key_cmd (disp escaped : string) : string :=
  "DISPLAY=" ++ disp ++ " xdotool key " ++ escaped.

Definition press_key (key : string) : M unit :=
  disp <- _get_display ;;
  let escaped := Shlex.quote key in
  _run (key_cmd disp escaped) 10 ;;
  ret tt.

(** [subprocess.run(argv, ..., timeout=t)]: the reply holds the exit
    status and, where the call captures them, the two streams as text. *)
Definition subprocess_run (argv : list string) (timeout : Z) : M ProcReply :=
  ask (EvSubprocess argv timeout) (fun h => subprocess_reply env h argv timeout).

Definition get_ip (vm_name : string) : M string :=
  result <- subprocess_run ["utmctl"; "ip-address"; vm_name] 10 ;;
  match result with
  | ProcRaise e => raise (Foreign e)
  | ProcDone returncode out err =>
      if negb (returncode =? 0)%Z then
        raise (VMError ("Failed to get VM IP: " ++ err))
      else ret (Text.strip out)
  end.

(** [start]: [check=True] turns a non-zero exit into
    [CalledProcessError]. *)
Definition start (vm_name : string) : M unit :=
  result <- subprocess_run ["utmctl"; "start"; vm_name] 30 ;;
  match result with
  | ProcRaise e => raise (Foreign e)
  | ProcDone returncode _ _ =>
      if negb (returncode =? 0)%Z then raise (Foreign "CalledProcessError")
      else ret tt
  end.

Definition is_running (vm_name : string) : M bool :=
  result <- subprocess_run ["utmctl"; "status"; vm_name] 10 ;;
  match result with
  | ProcRaise e => raise (Foreign e)
  | ProcDone _ out _ => ret (Text.contains "started" (Text.lower out))
  end.

End VMClass.

(** ** Vocabulary of the statements *)

(** The state with the session field replaced. *)
Definition with_ssh (c : option SSHClient) (s : State) : State :=
  snd (set_ssh c s).

(** The state with the history replaced. *)
Definition with_hist (s : State) (h : list Event) : State :=
  {| self := self s; hist := h |}.

(** The exception [_run] raises when there is no session. *)
Definition not_connected_error : exn := VMError "Not connected".

(** The message of the exception [_run] raises on a non-zero exit. *)
Definition command_failed_msg (exit_code : Z) (err : string) : string :=
  "Command failed (exit " ++ Text.str_of_int exit_code ++ "): " ++ Text.strip err.

(** The command lines of the two queries to the local CLI. *)
Definition status_argv (vm_name : string) : list string :=
  ["utmctl"; "status"; vm_name].

Definition ip_argv (vm_name : string) : list string :=
  ["utmctl"; "ip-address"; vm_name].

(** How a computation ended. *)
Definition returned {A} (o : outcome A) : bool :=
  match o with Ret _ => true | Raise _ => false end.

Definition raised_VMError {A} (o : outcome A) : bool :=
  match o with Raise (VMError _) => true | _ => false end.

(** The button table in the words of the specification. *)
Definition spec_button_code (button : string) : string :=
  if String.eqb button "left" then "1"
  else if String.eqb button "right" then "3"
  else if String.eqb button "middle" then "2"
  else "1".

(** The four sextets of a group of three bytes. *)
Definition sx1 (a : N) : N := N.shiftr a 2.
Definition sx2 (a b : N) : N := N.lor (N.shiftl (N.land a 3) 4) (N.shiftr b 4).
Definition sx3 (b c : N) : N := N.lor (N.shiftl (N.land b 15) 2) (N.shiftr c 6).
Definition sx4 (c : N) : N := N.land c 63.

(** A character the decoder looks at: one of the alphabet, or padding. *)
Definition data_char (c : ascii) : bool :=
  Ascii.eqb c Base64.pad
  || match Base64.sextet c with Some _ => true | None => false end.

(** The text without the characters the decoder skips. *)
Fixpoint data_chars (s : string) : string :=
  match s with
  | EmptyString => EmptyString
  | String c t => if data_char c then String c (data_chars t) else data_chars t
  end.

(** ** Stub environments, for running the model on concrete inputs *)

Module Stub.

(** A remote channel that answers through [exec] while the client's
    transport is open and raises [SSHException] otherwise, as paramiko
    does on a client that never connected. *)
Definition channel (exec : list Event -> string -> Z -> ExecReply)
  : list Event -> SSHClient -> string -> Z -> ExecReply :=
  fun h c cmd t =>
    if transport_open c then exec h cmd t else ExecRaise "SSHException".

Definition make (conn : option string)
                (exec : list Event -> string -> Z -> ExecReply)
                (proc : list string -> ProcReply) : Env :=
  {| expanduser := fun p => p;
     load_host_keys_reply := fun _ => None;
     connect_reply := fun _ _ _ _ _ => conn;
     exec_reply := channel exec;
     subprocess_reply := fun _ argv _ => proc argv;
     time_reply := fun h => Z.of_nat (List.length h) |}.

(** Every remote command ends with the same exit status and streams. *)
Definition always (exit_code : Z) (out err : string)
  : list Event -> string -> Z -> ExecReply :=
  fun _ _ _ => ExecDone exit_code out err.

Definition no_proc : list string -> ProcReply :=
  fun _ => ProcRaise "FileNotFoundError".

(** A controller as [__init__] leaves it, with an empty history. *)
Definition fresh (env : Env) : State :=
  {| self := __init__ env "vm" "10.0.0.7" "user" "~/.ssh/id_ed25519";
     hist := [] |}.

(** The state after running [m] from [s], whatever its outcome. *)
Definition after {A} (m : M A) (s : State) : State := snd (m s).

(** A fresh controller after a call of [connect]. *)
Definition connected (env : Env) : State := after (connect env) (fresh env).

(** Connection succeeds and every remote command exits 0. *)
Definition env_ok : Env := make None (always 0 "" "") no_proc.

(** The connection attempt raises. *)
Definition env_auth_fails : Env :=
  make (Some "AuthenticationException") (always 0 "" "") no_proc.

(** Every remote command exits 1 with [permission denied] on stderr. *)
Definition env_denied : Env :=
  make None (always 1 "" "permission denied") no_proc.

End Stub.

Module StubCLI.

(** The status query prints [started] in capitals and exits 1. *)
Definition env_started_exit1 : Env :=
  Stub.make None (Stub.always 0 "" "")
    (fun _ => ProcDone 1 ("STARTED" ++ Text.nl) "").

(** The status query exits 0 and prints [stopped]. *)
Definition env_stopped : Env :=
  Stub.make None (Stub.always 0 "" "")
    (fun _ => ProcDone 0 ("stopped" ++ Text.nl) "").

(** Waiting for the CLI times out. *)
Definition env_timeout : Env :=
  Stub.make None (Stub.always 0 "" "") (fun _ => ProcRaise "TimeoutExpired").

(** The IP query prints an address. *)
Definition env_ip : Env :=
  Stub.make None (Stub.always 0 "" "")
    (fun _ => ProcDone 0 ("192.168.64.5" ++ Text.nl) "").

(** The IP query fails. *)
Definition env_ip_fails : Env :=
  Stub.make None (Stub.always 0 "" "")
    (fun _ => ProcDone 2 "" "Virtual machine not found").

End StubCLI.

Module StubProbe.

(** The geometry probe of [":0"] exits 1, every other command exits 0. *)
Definition first_fails : list Event -> string -> Z -> ExecReply :=
  fun _ cmd _ =>
    if String.eqb cmd (probe_cmd ":0") then ExecDone 1 "" "Can't open display"
    else ExecDone 0 "" "".

Definition env_second_display : Env := Stub.make None first_fails Stub.no_proc.

(** Opening the channel for a command times out. *)
Definition env_probe_timeout : Env :=
  Stub.make None (fun _ _ _ => ExecRaise "SSHException") Stub.no_proc.

End StubProbe.

Module StubShot.

(** Every remote command exits 0 and prints the same base64 text. *)
Definition env_fixed_payload : Env :=
  Stub.make None (Stub.always 0 ("aGVsbG8=" ++ Text.nl) "") Stub.no_proc.

End StubShot.

(** ** Vocabulary of the further properties *)

(** A computation that leaves the controller object as it found it. *)
Definition keeps_self {A} (m : M A) : Prop :=
  forall s, self (snd (m s)) = self s.

(** A computation that does not raise [VMError("Not connected")] when the
    session field holds a client. *)
Definition no_not_connected {A} (m : M A) : Prop :=
  forall s c, ssh (self s) = Some c -> fst (m s) <> Raise not_connected_error.

(** The exception a reply of the remote channel makes [_run] raise. *)
Definition failure_of (r : ExecReply) : option exn :=
  match r with
  | ExecRaise e => Some (Foreign e)
  | ExecDone exit_code _ err =>
      if (exit_code =? 0)%Z then None
      else Some (VMError (command_failed_msg exit_code err))
  end.

(** The events of the two geometry probes. *)
Definition probe_event (disp : string) : Event := EvExec (probe_cmd disp) 2.

(** Whitespace at the two ends of a text. *)
Definition starts_with_space (s : string) : bool :=
  match s with
  | EmptyString => false
  | String c _ => Text.is_space c
  end.

Fixpoint ends_with_space (s : string) : bool :=
  match s with
  | EmptyString => false
  | String c EmptyString => Text.is_space c
  | String _ t => ends_with_space t
  end.

Fixpoint all_space (s : string) : bool :=
  match s with
  | EmptyString => true
  | String c t => Text.is_space c && all_space t
  end.

(** Reading a decimal numeral back, as [int(s)] does. *)
Definition read_int (s : string) : option Z :=
  option_map Z.of_int (NilZero.int_of_string s).

(** The characters of a decimal numeral. *)
Fixpoint numeric (s : string) : bool :=
  match s with
  | EmptyString => true
  | String c t =>
      ((Text.code c =? 45) || (48 <=? Text.code c) && (Text.code c <=? 57))%N
      && numeric t
  end.

(** A computation that only adds requests to the history. *)
Definition extends_hist {A} (m : M A) : Prop :=
  forall s, exists l, hist (snd (m s)) = (hist s ++ l)%list.

(** ** The words a POSIX shell makes of a command line

    Only the constructs the commands of this module use are read: words of
    the characters [shlex.quote] leaves bare, blanks between words, single
    quotes, and double quotes without expansions.  Any other construct gives
    [None]. *)

Module Shell.

Inductive mode : Type := Plain | InSingle | InDouble.

Definition is_blank (c : ascii) : bool :=
  ((Text.code c =? 32) || (Text.code c =? 9))%N.

(** Inside double quotes [$], the backquote and the backslash keep their
    meaning. *)
Definition expands_in_double (c : ascii) : bool :=
  ((Text.code c =? 36) || (Text.code c =? 96) || (Text.code c =? 92))%N.

(** The word being read, if one has begun. *)
Definition word_of (cur : option string) : string :=
  match cur with
  | Some w => w
  | None => EmptyString
  end.

Definition push (cur : option string) (c : ascii) : option string :=
  Some (word_of cur ++ String c EmptyString).

Fixpoint split (s : string) (m : mode) (cur : option string)
  : option (list string) :=
  match s with
  | EmptyString =>
      match m with
      | Plain => Some (match cur with Some w => [w] | None => [] end)
      | _ => None
      end
  | String c t =>
      match m with
      | Plain =>
          if Ascii.eqb c Shlex.squote then split t InSingle (Some (word_of cur))
          else if Ascii.eqb c Shlex.dquote then split t InDouble (Some (word_of cur))
          else if is_blank c then
            match cur with
            | Some w => option_map (cons w) (split t Plain None)
            | None => split t Plain None
            end
          else if Shlex.is_safe c then split t Plain (push cur c)
          else None
      | InSingle =>
          if Ascii.eqb c Shlex.squote then split t Plain cur
          else split t InSingle (push cur c)
      | InDouble =>
          if Ascii.eqb c Shlex.dquote then split t Plain cur
          else if expands_in_double c then None
          else split t InDouble (push cur c)
      end
  end.

Definition words (s : string) : option (list string) := split s Plain None.

End Shell.

(** The word in progress after the bare characters [s]. *)
Definition pushed (cur : option string) (s : string) : option string :=
  match s with
  | EmptyString => cur
  | _ => Some (Shell.word_of cur ++ s)
  end.

Module StubMore.

(** The first two click commands exit 0, the third exits 5. *)
Definition third_click_fails : list Event -> string -> Z -> ExecReply :=
  fun h cmd _ =>
    if String.eqb cmd (click_cmd ":0" "1")
       && Nat.leb 5 (List.length h)
    then ExecDone 5 "" "no such window"
    else ExecDone 0 "" "".

Definition env_third_click_fails : Env :=
  Stub.make None third_click_fails Stub.no_proc.

(** The capture command prints the encoding in two lines. *)
Definition env_two_lines : Env :=
  Stub.make None
    (Stub.always 0 ("aGVs" ++ Text.nl ++ "bG8=" ++ Text.nl) "") Stub.no_proc.

(** The IP query prints an address between blank lines. *)
Definition env_ip_padded : Env :=
  Stub.make None (Stub.always 0 "" "")
    (fun _ => ProcDone 0 (Text.nl ++ " 192.168.64.5 " ++ Text.nl) "").

(** The status query prints a longer word in capitals. *)
Definition env_restarted : Env :=
  Stub.make None (Stub.always 0 "" "")
    (fun _ => ProcDone 0 ("VM is reSTARTed" ++ Text.nl) "").

End StubMore.

(** * Part two: properties *)

(** ** The library functions on examples *)

Example strip_ex : Text.strip ("  10.0.0.7 " ++ Text.nl) = "10.0.0.7".
Proof. reflexivity. Qed.

Example lower_ex : Text.lower "VM Started" = "vm started".
Proof. reflexivity. Qed.

Example contains_ex : Text.contains "started" "vm started" = true.
Proof. reflexivity. Qed.

Example str_of_int_ex : Text.str_of_int (-20) = "-20" /\ Text.str_of_int 0 = "0".
Proof. split; reflexivity. Qed.

Example quote_plain : Shlex.quote "ctrl+a" = "ctrl+a".
Proof. reflexivity. Qed.

Example quote_spaces : Shlex.quote "hello world" = "'hello world'".
Proof. reflexivity. Qed.

Example b64decode_hello :
  Base64.b64decode "aGVsbG8=" = inr [x68; x65; x6c; x6c; x6f].
Proof. reflexivity. Qed.

Example b64decode_wrapped :
  Base64.b64decode ("aGVs" ++ Text.nl ++ "bG8=") = inr [x68; x65; x6c; x6c; x6f].
Proof. reflexivity. Qed.

Example b64decode_truncated : Base64.b64decode "aGVsb" = inl "binascii.Error".
Proof. reflexivity. Qed.

Example b64encode_hello : Base64.b64encode [x68; x65; x6c; x6c; x6f] = "aGVsbG8=".
Proof. reflexivity. Qed.

(** ** A run of the model *)

Example connect_then_move :
  move_mouse Stub.env_ok 10 20 (Stub.connected Stub.env_ok)
  = (Ret tt,
     {| self := {| name := "vm"; ssh_host := "10.0.0.7"; ssh_user := "user";
                   ssh_key := "~/.ssh/id_ed25519";
                   ssh := Some {| transport_open := true |} |};
        hist := [EvLoadHostKeys;
                 EvConnect "10.0.0.7" "user" "~/.ssh/id_ed25519" 10;
                 EvExec "DISPLAY=:0 xdotool getdisplaygeometry" 2;
                 EvExec "DISPLAY=:0 xdotool mousemove 10 20" 10] |}).
Proof. reflexivity. Qed.

(** ** General facts about the text primitives *)

Lemma startswith_app (x q : string) : Text.startswith x (x ++ q) = true.
Proof.
  induction x as [|a x IH]; simpl.
  - reflexivity.
  - now rewrite Ascii.eqb_refl, IH.
Qed.

Lemma contains_here (x h : string) :
  Text.startswith x h = true -> Text.contains x h = true.
Proof. intros H. destruct h; simpl in *; rewrite H; reflexivity. Qed.

Lemma contains_later (x : string) (a : ascii) (h : string) :
  Text.contains x h = true -> Text.contains x (String a h) = true.
Proof. intros H. simpl. rewrite H. apply orb_true_r. Qed.

Lemma contains_app (p x q : string) : Text.contains x (p ++ x ++ q) = true.
Proof.
  induction p as [|a p IH].
  - change ("" ++ x ++ q) with (x ++ q). apply contains_here, startswith_app.
  - simpl append. now apply contains_later.
Qed.

Lemma contains_suffix (p x : string) : Text.contains x (p ++ x) = true.
Proof.
  replace x with (x ++ "") at 2.
  - apply contains_app.
  - induction x; simpl; congruence.
Qed.

Lemma contains_app_r (p x q : string) :
  Text.contains x q = true -> Text.contains x (p ++ q) = true.
Proof.
  intros H. induction p as [|a p IH]; [exact H|].
  simpl append. now apply contains_later.
Qed.

(** ** [_run] with and without a session *)

Lemma _run_not_connected env cmd t s :
  ssh (self s) = None -> _run env cmd t s = (Raise (VMError "Not connected"), s).
Proof. intros H. unfold _run, bind, get_ssh. now rewrite H. Qed.

Lemma _run_connected env cmd t s c :
  ssh (self s) = Some c ->
  _run env cmd t s =
  (match exec_reply env (hist s) c cmd t with
   | ExecRaise e => Raise (Foreign e)
   | ExecDone exit_code out err =>
       if (exit_code =? 0)%Z then Ret out
       else Raise (VMError ("Command failed (exit " ++ Text.str_of_int exit_code
                            ++ "): " ++ Text.strip err))
   end, record (EvExec cmd t) s).
Proof.
  intros H. unfold _run, bind, get_ssh, ask. rewrite H.
  destruct (exec_reply env (hist s) c cmd t) as [code out err|e]; try reflexivity.
  destruct (code =? 0)%Z; reflexivity.
Qed.

Lemma _get_display_not_connected env s :
  ssh (self s) = None -> _get_display env s = (Ret ":0", s).
Proof.
  intros H. unfold _get_display, probe_displays, try_except_VMError, bind.
  rewrite !_run_not_connected by assumption. reflexivity.
Qed.

(** ** disconnect *)

Lemma disconnect_open s c :
  ssh (self s) = Some c ->
  disconnect s = (Ret tt, with_ssh None (record EvClose s)).
Proof. intros H. unfold disconnect, bind, get_ssh. now rewrite H. Qed.

Lemma disconnect_closed s :
  ssh (self s) = None -> disconnect s = (Ret tt, s).
Proof. intros H. unfold disconnect, bind, get_ssh. now rewrite H. Qed.

Lemma disconnect_leaves_no_session s :
  ssh (self (snd (disconnect s))) = None.
Proof.
  destruct (ssh (self s)) as [c|] eqn:H.
  - now rewrite (disconnect_open s c H).
  - now rewrite (disconnect_closed s H).
Qed.

(** C8: [disconnect] never raises; with a session open it closes the
    client (one [EvClose]) and sets the session field to [None]; with no
    session it leaves the state as it is; and running it twice leaves the
    same state, with the same outcome, as running it once. *)
Theorem disconnect_idempotent s :
  disconnect s
  = (Ret tt,
     match ssh (self s) with
     | Some _ => with_ssh None (record EvClose s)
     | None => s
     end)
  /\ ssh (self (snd (disconnect s))) = None
  /\ (disconnect ;; disconnect) s = disconnect s.
Proof.
  split; [|split].
  - destruct (ssh (self s)) as [c|] eqn:H.
    + now apply disconnect_open with c.
    + now apply disconnect_closed.
  - apply disconnect_leaves_no_session.
  - pose proof (disconnect_leaves_no_session s) as Hn.
    unfold bind at 1.
    destruct (disconnect s) as [[[]|e] s'] eqn:Hd.
    + simpl in Hn. now apply disconnect_closed.
    + reflexivity.
Qed.

(** ** connect *)

Lemma connect_steps env s :
  connect env s =
  let s0 := with_ssh (Some {| transport_open := false |}) s in
  match load_host_keys_reply env (hist s) with
  | Some e => (Raise (Foreign e), record EvLoadHostKeys s0)
  | None =>
      let s1 := record EvLoadHostKeys s0 in
      let v := self s in
      let s2 := record (EvConnect (ssh_host v) (ssh_user v) (ssh_key v) 10) s1 in
      match connect_reply env (hist s1) (ssh_host v) (ssh_user v) (ssh_key v) 10 with
      | Some e => (Raise (Foreign e), s2)
      | None => (Ret tt, with_ssh (Some {| transport_open := true |}) s2)
      end
  end.
Proof.
  unfold connect, bind, ask, get_self, set_ssh, raise; simpl.
  destruct (load_host_keys_reply env (hist s)); [reflexivity|].
  simpl. destruct (connect_reply _ _ _ _ _ _); reflexivity.
Qed.

(** C10: when the connection attempt of [connect] raises, the exception
    reaches the caller and the session field holds the client object that
    was stored before the attempt: it is not [None], whatever it was before
    the call, in particular when the controller had no session. *)
Theorem connect_failure_leaves_client env s e :
  load_host_keys_reply env (hist s) = None ->
  connect_reply env (hist s ++ [EvLoadHostKeys])
    (ssh_host (self s)) (ssh_user (self s)) (ssh_key (self s)) 10 = Some e ->
  fst (connect env s) = Raise (Foreign e)
  /\ ssh (self (snd (connect env s))) = Some {| transport_open := false |}
  /\ ssh (self (snd (connect env s))) <> None.
Proof.
  intros Hl Hc. rewrite connect_steps. cbv zeta. rewrite Hl.
  simpl hist. rewrite Hc. simpl. repeat split. discriminate.
Qed.

Lemma connect_failure_leaves_client_witness :
  ssh (self (Stub.fresh Stub.env_auth_fails)) = None
  /\ fst (connect Stub.env_auth_fails (Stub.fresh Stub.env_auth_fails))
     = Raise (Foreign "AuthenticationException")
  /\ ssh (self (snd (connect Stub.env_auth_fails (Stub.fresh Stub.env_auth_fails))))
     <> None.
Proof.
  split; [reflexivity|].
  destruct (connect_failure_leaves_client Stub.env_auth_fails
              (Stub.fresh Stub.env_auth_fails)
              "AuthenticationException" eq_refl eq_refl) as (H1 & _ & H3).
  split; [exact H1 | exact H3].
Defined.

(** ** Actions on a controller with no session *)

Lemma init_has_no_session env n h u k : ssh (__init__ env n h u k) = None.
Proof. reflexivity. Qed.

Lemma for_range_raises (n : nat) (body : M unit) (e : exn) (s : State) :
  (0 < n)%nat -> body s = (Raise e, s) -> for_range n body s = (Raise e, s).
Proof.
  intros Hn Hb. destruct n as [|n]; [lia|].
  simpl. unfold bind. now rewrite Hb.
Qed.

(** C9: on a controller with no session [_get_display] returns the
    default [":0"], raises nothing and leaves the state (so no command is
    sent); the [Not connected] error of [_run] reaches the caller from the
    command the action sends afterwards, as for [move_mouse]. *)
Theorem get_display_swallows_not_connected env s :
  ssh (self s) = None ->
  _get_display env s = (Ret ":0", s)
  /\ (forall cmd t, _run env cmd t s = (Raise not_connected_error, s))
  /\ (forall x y, move_mouse env x y s = (Raise not_connected_error, s)).
Proof.
  intros H. split; [|split].
  - now apply _get_display_not_connected.
  - intros. now apply _run_not_connected.
  - intros. unfold move_mouse, bind.
    rewrite _get_display_not_connected by assumption.
    now rewrite _run_not_connected.
Qed.

Lemma get_display_swallows_not_connected_witness :
  ssh (self (Stub.fresh Stub.env_ok)) = None
  /\ _get_display Stub.env_ok (Stub.fresh Stub.env_ok)
     = (Ret ":0", Stub.fresh Stub.env_ok)
  /\ move_mouse Stub.env_ok 10 20 (Stub.fresh Stub.env_ok)
     = (Raise not_connected_error, Stub.fresh Stub.env_ok).
Proof.
  split; [reflexivity|].
  destruct (get_display_swallows_not_connected Stub.env_ok
              (Stub.fresh Stub.env_ok) eq_refl) as (H1 & _ & H3).
  split; [exact H1 | exact (H3 10%Z 20%Z)].
Defined.

(** C2 as amended: on a controller whose session field is [None] (a new
    one, or one after [disconnect]) [screenshot], [move_mouse], [type_text]
    and [press_key] raise [VMError("Not connected")], and so does [click]
    when [clicks] is at least 1; [click] with [clicks <= 0] sends nothing
    and returns.  No command reaches the remote machine. *)
Theorem actions_without_session env s :
  ssh (self s) = None ->
  screenshot env s = (Raise not_connected_error, record EvTime s)
  /\ (forall x y, move_mouse env x y s = (Raise not_connected_error, s))
  /\ (forall button clicks, (1 <= clicks)%Z ->
        click env button clicks s = (Raise not_connected_error, s))
  /\ (forall button clicks, (clicks <= 0)%Z ->
        click env button clicks s = (Ret tt, s))
  /\ (forall text, type_text env text s = (Raise not_connected_error, s))
  /\ (forall key, press_key env key s = (Raise not_connected_error, s)).
Proof.
  intros H.
  assert (Hd : _get_display env s = (Ret ":0", s))
    by now apply _get_display_not_connected.
  repeat split; intros.
  - unfold screenshot, bind, ask.
    rewrite _get_display_not_connected by assumption.
    now rewrite _run_not_connected.
  - unfold move_mouse, bind. rewrite Hd. now rewrite _run_not_connected.
  - unfold click, bind. rewrite Hd. apply for_range_raises; [lia|].
    now rewrite _run_not_connected.
  - unfold click, bind. rewrite Hd.
    replace (Z.to_nat clicks) with 0%nat by lia. reflexivity.
  - unfold type_text, bind. rewrite Hd. now rewrite _run_not_connected.
  - unfold press_key, bind. rewrite Hd. now rewrite _run_not_connected.
Qed.

Lemma actions_without_session_witness :
  ssh (self (Stub.after disconnect (Stub.connected Stub.env_ok))) = None
  /\ click Stub.env_ok "left" 1 (Stub.after disconnect (Stub.connected Stub.env_ok))
     = (Raise not_connected_error,
        Stub.after disconnect (Stub.connected Stub.env_ok))
  /\ press_key Stub.env_ok "Return" (Stub.fresh Stub.env_ok)
     = (Raise not_connected_error, Stub.fresh Stub.env_ok).
Proof.
  split; [reflexivity|]. split.
  - destruct (actions_without_session Stub.env_ok
                (Stub.after disconnect (Stub.connected Stub.env_ok)) eq_refl)
      as (_ & _ & H & _).
    apply H. lia.
  - destruct (actions_without_session Stub.env_ok (Stub.fresh Stub.env_ok) eq_refl)
      as (_ & _ & _ & _ & _ & H).
    apply H.
Defined.

(** C2 as stated fails twice.  On a new controller [click("left", 0)]
    returns normally, having done nothing.  After a [connect] that raised,
    the session field holds a client, the guard of [_run] lets the call
    through, and [move_mouse] raises the library's exception, not
    [VMError("Not connected")]. *)
Lemma actions_before_connect_counterexample :
  click Stub.env_ok "left" 0 (Stub.fresh Stub.env_ok)
  = (Ret tt, Stub.fresh Stub.env_ok)
  /\ fst (connect Stub.env_auth_fails (Stub.fresh Stub.env_auth_fails))
     = Raise (Foreign "AuthenticationException")
  /\ fst (move_mouse Stub.env_auth_fails 10 20
            (Stub.connected Stub.env_auth_fails))
     = Raise (Foreign "SSHException")
  /\ fst (move_mouse Stub.env_auth_fails 10 20
            (Stub.connected Stub.env_auth_fails))
     <> Raise not_connected_error.
Proof. repeat split. discriminate. Qed.

(** ** The local hypervisor CLI: [is_running] and [get_ip] *)

(** C1 as amended: when the status query completes, with whatever exit
    status, [is_running] returns without raising, and it returns [true]
    exactly when the captured stdout, lower-cased, contains ["started"];
    when running the process raises, [is_running] raises the same
    exception.  The controller object is not touched. *)
Theorem is_running_spec env s vm_name :
  (forall returncode out err,
      subprocess_reply env (hist s) (status_argv vm_name) 10
      = ProcDone returncode out err ->
      exists b,
        is_running env vm_name s
        = (Ret b, record (EvSubprocess (status_argv vm_name) 10) s)
        /\ (b = true <-> Text.contains "started" (Text.lower out) = true))
  /\ (forall e,
      subprocess_reply env (hist s) (status_argv vm_name) 10 = ProcRaise e ->
      is_running env vm_name s
      = (Raise (Foreign e), record (EvSubprocess (status_argv vm_name) 10) s)).
Proof.
  split.
  - intros rc out err H.
    exists (Text.contains "started" (Text.lower out)). split; [|tauto].
    unfold is_running, bind, subprocess_run, ask. fold (status_argv vm_name).
    now rewrite H.
  - intros e H.
    unfold is_running, bind, subprocess_run, ask. fold (status_argv vm_name).
    now rewrite H.
Qed.

Lemma is_running_spec_witness :
  fst (is_running StubCLI.env_stopped "vm" (Stub.fresh StubCLI.env_stopped))
  = Ret false
  /\ fst (is_running StubCLI.env_timeout "vm" (Stub.fresh StubCLI.env_timeout))
     = Raise (Foreign "TimeoutExpired").
Proof.
  split.
  - destruct (is_running_spec StubCLI.env_stopped
                (Stub.fresh StubCLI.env_stopped) "vm") as [H _].
    destruct (H 0%Z ("stopped" ++ Text.nl) "" eq_refl) as (b & Hb & Hiff).
    rewrite Hb. simpl. destruct b; [|reflexivity].
    destruct Hiff as [Hiff _]. specialize (Hiff eq_refl). discriminate Hiff.
  - destruct (is_running_spec StubCLI.env_timeout
                (Stub.fresh StubCLI.env_timeout) "vm") as [_ H].
    now rewrite (H "TimeoutExpired" eq_refl).
Defined.

(** C1 as stated fails on both of its failure clauses: a status query
    that exits 1 after printing [STARTED] makes [is_running] return
    [true], and a query whose process invocation raises makes
    [is_running] raise. *)
Lemma is_running_counterexample :
  subprocess_reply StubCLI.env_started_exit1 [] (status_argv "vm") 10
  = ProcDone 1 ("STARTED" ++ Text.nl) ""
  /\ fst (is_running StubCLI.env_started_exit1 "vm"
            (Stub.fresh StubCLI.env_started_exit1)) = Ret true
  /\ fst (is_running StubCLI.env_timeout "vm" (Stub.fresh StubCLI.env_timeout))
     = Raise (Foreign "TimeoutExpired")
  /\ fst (is_running StubCLI.env_timeout "vm" (Stub.fresh StubCLI.env_timeout))
     <> Ret false.
Proof. repeat split. discriminate. Qed.

(** C6: when the IP query exits 0, [get_ip] returns its stdout with the
    surrounding whitespace removed; when it exits with another status,
    [get_ip] raises [VMError] with the message
    ["Failed to get VM IP: "] followed by the captured stderr. *)
Theorem get_ip_spec env s vm_name returncode out err :
  subprocess_reply env (hist s) (ip_argv vm_name) 10
  = ProcDone returncode out err ->
  (returncode = 0%Z -> fst (get_ip env vm_name s) = Ret (Text.strip out))
  /\ (returncode <> 0%Z ->
      fst (get_ip env vm_name s) = Raise (VMError ("Failed to get VM IP: " ++ err))
      /\ Text.contains err ("Failed to get VM IP: " ++ err) = true).
Proof.
  intros H. unfold get_ip, bind, subprocess_run, ask. fold (ip_argv vm_name).
  rewrite H. split.
  - intros ->. reflexivity.
  - intros Hrc. apply Z.eqb_neq in Hrc. rewrite Hrc. split; [reflexivity|].
    apply contains_suffix.
Qed.

Lemma get_ip_spec_witness :
  fst (get_ip StubCLI.env_ip "vm" (Stub.fresh StubCLI.env_ip)) = Ret "192.168.64.5"
  /\ fst (get_ip StubCLI.env_ip_fails "vm" (Stub.fresh StubCLI.env_ip_fails))
     = Raise (VMError "Failed to get VM IP: Virtual machine not found").
Proof.
  split.
  - destruct (get_ip_spec StubCLI.env_ip (Stub.fresh StubCLI.env_ip) "vm"
                0 ("192.168.64.5" ++ Text.nl) "" eq_refl) as [H _].
    exact (H eq_refl).
  - destruct (get_ip_spec StubCLI.env_ip_fails (Stub.fresh StubCLI.env_ip_fails)
                "vm" 2 "" "Virtual machine not found" eq_refl) as [_ H].
    destruct H as [H _]; [discriminate|]. exact H.
Defined.

(** ** Display detection *)

Lemma _get_display_connected env s c :
  ssh (self s) = Some c ->
  _get_display env s =
  let s1 := record (EvExec (probe_cmd ":0") 2) s in
  match exec_reply env (hist s) c (probe_cmd ":0") 2 with
  | ExecRaise e => (Raise (Foreign e), s1)
  | ExecDone code0 _ _ =>
      if (code0 =? 0)%Z then (Ret ":0", s1)
      else
        let s2 := record (EvExec (probe_cmd ":1") 2) s1 in
        match exec_reply env (hist s1) c (probe_cmd ":1") 2 with
        | ExecRaise e => (Raise (Foreign e), s2)
        | ExecDone code1 _ _ =>
            if (code1 =? 0)%Z then (Ret ":1", s2) else (Ret ":0", s2)
        end
  end.
Proof.
  intros H. unfold _get_display, probe_displays, try_except_VMError, bind.
  rewrite (_run_connected env _ _ s c H).
  destruct (exec_reply env (hist s) c (probe_cmd ":0") 2) as [c0 o0 e0|x0];
    [|reflexivity].
  destruct (c0 =? 0)%Z; [reflexivity|].
  cbv zeta.
  rewrite (_run_connected env _ _ (record (EvExec (probe_cmd ":0") 2) s) c H).
  destruct (exec_reply env _ c (probe_cmd ":1") 2) as [c1 o1 e1|x1];
    [|reflexivity].
  destruct (c1 =? 0)%Z; reflexivity.
Qed.

(** C4 as amended: call a probe successful when its [_run] returns and
    failed when its [_run] raises [VMError] (a non-zero exit, or no
    session).  [_get_display] returns [":0"] when the probe of [":0"]
    succeeds, [":1"] when that probe fails and the probe of [":1"]
    succeeds, and the default [":0"] when both fail; in these cases it does
    not raise.  An exception of another class raised by a probe is not
    caught: [_get_display] raises it, and no further probe is made. *)
Theorem get_display_first_success env s :
  let p0 := _run env (probe_cmd ":0") 2 s in
  let p1 := _run env (probe_cmd ":1") 2 (snd p0) in
  (returned (fst p0) = true -> _get_display env s = (Ret ":0", snd p0))
  /\ (raised_VMError (fst p0) = true -> returned (fst p1) = true ->
      _get_display env s = (Ret ":1", snd p1))
  /\ (raised_VMError (fst p0) = true -> raised_VMError (fst p1) = true ->
      _get_display env s = (Ret ":0", snd p1))
  /\ (forall e, fst p0 = Raise (Foreign e) ->
      _get_display env s = (Raise (Foreign e), snd p0))
  /\ (forall e, raised_VMError (fst p0) = true -> fst p1 = Raise (Foreign e) ->
      _get_display env s = (Raise (Foreign e), snd p1)).
Proof.
  intros p0 p1. subst p1.
  unfold _get_display, probe_displays, try_except_VMError, bind.
  fold p0. destruct p0 as [[out0|[m0|x0]] s0]; simpl.
  - repeat split; intros; try discriminate; try reflexivity.
  - destruct (_run env (probe_cmd ":1") 2 s0) as [[out1|[m1|x1]] s1]; simpl;
      repeat split; intros; try discriminate; try reflexivity; congruence.
  - repeat split; intros; try discriminate; congruence.
Qed.

Lemma get_display_first_success_witness :
  _get_display StubProbe.env_second_display
    (Stub.connected StubProbe.env_second_display)
  = (Ret ":1",
     record (EvExec (probe_cmd ":1") 2)
       (record (EvExec (probe_cmd ":0") 2)
          (Stub.connected StubProbe.env_second_display))).
Proof.
  destruct (get_display_first_success StubProbe.env_second_display
              (Stub.connected StubProbe.env_second_display))
    as (_ & H & _).
  exact (H eq_refl eq_refl).
Defined.

(** C4 as stated fails: with a session open and a channel on which the
    probe raises the library's exception, [_get_display] raises. *)
Lemma get_display_counterexample :
  ssh (self (Stub.connected StubProbe.env_probe_timeout))
  = Some {| transport_open := true |}
  /\ fst (_get_display StubProbe.env_probe_timeout
            (Stub.connected StubProbe.env_probe_timeout))
     = Raise (Foreign "SSHException").
Proof. split; reflexivity. Qed.

Lemma _get_display_never_VMError env s msg :
  fst (_get_display env s) <> Raise (VMError msg).
Proof.
  unfold _get_display, probe_displays, try_except_VMError, bind.
  destruct (_run env (probe_cmd ":0") 2 s) as [[out0|[m0|x0]] s0]; simpl;
    try discriminate.
  destruct (_run env (probe_cmd ":1") 2 s0) as [[out1|[m1|x1]] s1]; simpl;
    discriminate.
Qed.

Lemma _get_display_keeps_self env s : self (snd (_get_display env s)) = self s.
Proof.
  destruct (ssh (self s)) as [c|] eqn:H.
  - rewrite (_get_display_connected env s c H). cbv zeta.
    destruct (exec_reply env (hist s) c (probe_cmd ":0") 2) as [c0 o0 e0|x0];
      [|reflexivity].
    destruct (c0 =? 0)%Z; [reflexivity|].
    destruct (exec_reply env _ c (probe_cmd ":1") 2) as [c1 o1 e1|x1];
      [|reflexivity].
    destruct (c1 =? 0)%Z; reflexivity.
  - now rewrite _get_display_not_connected.
Qed.

(** Whatever the library does on a client that holds no open connection,
    an action on a controller whose session field is not [None] never
    raises [VMError("Not connected")]. *)
Lemma move_mouse_with_client env s c x y :
  ssh (self s) = Some c ->
  fst (move_mouse env x y s) <> Raise not_connected_error.
Proof.
  intros H. unfold move_mouse, bind.
  pose proof (_get_display_never_VMError env s) as Hnv.
  pose proof (_get_display_keeps_self env s) as Hk.
  destruct (_get_display env s) as [[disp|e] s1]; simpl in *.
  - assert (H1 : ssh (self s1) = Some c) by (rewrite Hk; exact H).
    rewrite (_run_connected env _ _ s1 c H1).
    destruct (exec_reply env (hist s1) c (move_cmd disp x y) 10)
      as [code out err|e]; simpl; [|discriminate].
    destruct (code =? 0)%Z; simpl; discriminate.
  - destruct e as [m|n]; [|discriminate]. exfalso. now apply (Hnv m).
Qed.

(** ** Remote command failure *)

Lemma command_failed_msg_carries exit_code err :
  Text.contains (Text.str_of_int exit_code) (command_failed_msg exit_code err) = true
  /\ Text.contains (Text.strip err) (command_failed_msg exit_code err) = true.
Proof.
  unfold command_failed_msg. split.
  - apply contains_app.
  - apply contains_app_r, contains_app_r, contains_suffix.
Qed.

(** C7: take a controller with a session open.  If every remote command
    exits 1 with stderr ["permission denied"], [move_mouse(10, 20)] raises
    [VMError] with the message
    ["Command failed (exit 1): permission denied"], which contains the exit
    code and the stderr text.  In general, for a command that ends with an
    exit status, [_run] returns the stdout when the status is 0 and
    otherwise raises [VMError] whose message holds the decimal exit code
    and the stderr text with its surrounding whitespace removed. *)
Theorem command_failure_spec env s c :
  ssh (self s) = Some c ->
  ((forall h cmd t, exists out,
       exec_reply env h c cmd t = ExecDone 1 out "permission denied") ->
   exists msg,
     fst (move_mouse env 10 20 s) = Raise (VMError msg)
     /\ msg = "Command failed (exit 1): permission denied"
     /\ Text.contains "1" msg = true
     /\ Text.contains "permission denied" msg = true)
  /\ (forall cmd t exit_code out err,
       exec_reply env (hist s) c cmd t = ExecDone exit_code out err ->
       (exit_code = 0%Z -> fst (_run env cmd t s) = Ret out)
       /\ (exit_code <> 0%Z ->
           fst (_run env cmd t s) = Raise (VMError (command_failed_msg exit_code err))
           /\ Text.contains (Text.str_of_int exit_code)
                (command_failed_msg exit_code err) = true
           /\ Text.contains (Text.strip err)
                (command_failed_msg exit_code err) = true)).
Proof.
  intros H. split.
  - intros Hall. exists "Command failed (exit 1): permission denied".
    split; [|repeat split].
    unfold move_mouse, bind.
    rewrite (_get_display_connected env s c H). cbv zeta.
    destruct (Hall (hist s) (probe_cmd ":0") 2%Z) as [o0 ->]. simpl Z.eqb. cbv iota.
    destruct (Hall (hist (record (EvExec (probe_cmd ":0") 2) s))
                (probe_cmd ":1") 2%Z) as [o1 ->]. simpl Z.eqb. cbv iota.
    set (s2 := record _ (record _ s)).
    assert (H2 : ssh (self s2) = Some c) by exact H.
    rewrite (_run_connected env _ _ s2 c H2).
    destruct (Hall (hist s2) (move_cmd ":0" 10 20) 10%Z) as [o2 ->].
    reflexivity.
  - intros cmd t code out err Hr.
    rewrite (_run_connected env cmd t s c H), Hr. simpl fst. split.
    + intros ->. reflexivity.
    + intros Hne. apply Z.eqb_neq in Hne. rewrite Hne.
      split; [reflexivity|]. apply command_failed_msg_carries.
Qed.

Lemma command_failure_spec_witness :
  ssh (self (Stub.connected Stub.env_denied)) = Some {| transport_open := true |}
  /\ fst (move_mouse Stub.env_denied 10 20 (Stub.connected Stub.env_denied))
     = Raise (VMError "Command failed (exit 1): permission denied")
  /\ fst (_run Stub.env_ok "true" 10 (Stub.connected Stub.env_ok)) = Ret "".
Proof.
  split; [reflexivity|]. split.
  - destruct (command_failure_spec Stub.env_denied (Stub.connected Stub.env_denied)
                {| transport_open := true |} eq_refl) as [H _].
    destruct H as (msg & Hm & -> & _).
    + intros h cmd t. exists "". reflexivity.
    + exact Hm.
  - destruct (command_failure_spec Stub.env_ok (Stub.connected Stub.env_ok)
                {| transport_open := true |} eq_refl) as [_ H].
    destruct (H "true" 10%Z 0%Z "" "" eq_refl) as [H0 _].
    exact (H0 eq_refl).
Defined.

(** ** click *)

Lemma button_code_refines button :
  dict_get button_codes button "1" = spec_button_code button.
Proof. reflexivity. Qed.

Lemma run_then_unit_ok env c cmd t s out err :
  ssh (self s) = Some c ->
  exec_reply env (hist s) c cmd t = ExecDone 0 out err ->
  (_run env cmd t ;; ret tt) s = (Ret tt, record (EvExec cmd t) s).
Proof.
  intros Hs Hr. unfold bind. rewrite (_run_connected env cmd t s c Hs), Hr.
  reflexivity.
Qed.

Lemma for_range_run_ok env c cmd t :
  forall n s,
    ssh (self s) = Some c ->
    (forall k, (k < n)%nat -> exists out err,
        exec_reply env (hist s ++ repeat (EvExec cmd t) k) c cmd t
        = ExecDone 0 out err) ->
    for_range n (_run env cmd t ;; ret tt) s
    = (Ret tt, with_hist s (hist s ++ repeat (EvExec cmd t) n)).
Proof.
  induction n as [|n IH]; intros s Hs Hok.
  - simpl. unfold ret, with_hist. rewrite app_nil_r. now destruct s.
  - destruct (Hok 0%nat ltac:(lia)) as (out & err & H0).
    simpl in H0. rewrite app_nil_r in H0.
    simpl for_range. unfold bind at 1.
    rewrite (run_then_unit_ok env c cmd t s out err Hs H0).
    rewrite (IH (record (EvExec cmd t) s) Hs).
    + unfold with_hist. simpl. now rewrite <- app_assoc.
    + intros k Hk. destruct (Hok (S k) ltac:(lia)) as (o & e & Hr).
      exists o, e. simpl hist. rewrite <- app_assoc. exact Hr.
Qed.

(** C3: take a controller with a session open, on which display detection
    returns [disp] and each click command exits 0.  For [clicks >= 0] and
    any [button], [click] returns without raising and sends, after the
    probes, exactly [clicks] commands, each the one click command for
    [disp] and the button code; the code is 1 for left, 3 for right, 2 for
    middle and 1 for any other name. *)
Theorem click_spec env s c button clicks disp s1 :
  ssh (self s) = Some c ->
  (0 <= clicks)%Z ->
  _get_display env s = (Ret disp, s1) ->
  (forall k, (k < Z.to_nat clicks)%nat -> exists out err,
      exec_reply env
        (hist s1 ++ repeat (EvExec (click_cmd disp (spec_button_code button)) 10) k)
        c (click_cmd disp (spec_button_code button)) 10
      = ExecDone 0 out err) ->
  (exists n,
      Z.of_nat n = clicks
      /\ click env button clicks s
         = (Ret tt,
            with_hist s1
              (hist s1
               ++ repeat (EvExec (click_cmd disp (spec_button_code button)) 10) n)))
  /\ spec_button_code "left" = "1"
  /\ spec_button_code "right" = "3"
  /\ spec_button_code "middle" = "2"
  /\ (button <> "left" -> button <> "right" -> button <> "middle" ->
      spec_button_code button = "1").
Proof.
  intros Hs Hc Hd Hok. split; [|repeat split].
  - exists (Z.to_nat clicks). split; [lia|].
    unfold click, bind. rewrite Hd. rewrite button_code_refines.
    apply for_range_run_ok with c; [|exact Hok].
    pose proof (_get_display_keeps_self env s) as Hk.
    rewrite Hd in Hk. simpl in Hk. now rewrite Hk.
  - intros Hl Hr Hm. unfold spec_button_code.
    destruct (String.eqb_spec button "left"); [contradiction|].
    destruct (String.eqb_spec button "right"); [contradiction|].
    destruct (String.eqb_spec button "middle"); [contradiction|].
    reflexivity.
Qed.

Lemma click_spec_witness :
  click Stub.env_ok "right" 3 (Stub.connected Stub.env_ok)
  = (Ret tt,
     with_hist (Stub.connected Stub.env_ok)
       (hist (Stub.connected Stub.env_ok)
        ++ [EvExec "DISPLAY=:0 xdotool getdisplaygeometry" 2;
            EvExec "DISPLAY=:0 xdotool click 3" 10;
            EvExec "DISPLAY=:0 xdotool click 3" 10;
            EvExec "DISPLAY=:0 xdotool click 3" 10])).
Proof.
  destruct (click_spec Stub.env_ok (Stub.connected Stub.env_ok)
              {| transport_open := true |} "right" 3 ":0"
              (record (EvExec (probe_cmd ":0") 2) (Stub.connected Stub.env_ok))
              eq_refl ltac:(lia) eq_refl) as [(n & Hn & Hclick) _].
  - intros k _. exists "", "". reflexivity.
  - rewrite Hclick. assert (n = 3%nat) as -> by lia. reflexivity.
Defined.

(** ** The decoder inverts the encoder *)

Lemma forall_below (P : N -> bool) (k : nat) :
  forallb P (map N.of_nat (seq 0 k)) = true ->
  forall n, (n < N.of_nat k)%N -> P n = true.
Proof.
  intros H n Hn. rewrite forallb_forall in H. apply H.
  apply in_map_iff. exists (N.to_nat n). split; [apply N2Nat.id|].
  apply in_seq. lia.
Qed.

Lemma forall_below2 (P : N -> N -> bool) (k : nat) :
  forallb (fun a => forallb (P a) (map N.of_nat (seq 0 k)))
    (map N.of_nat (seq 0 k)) = true ->
  forall a b, (a < N.of_nat k)%N -> (b < N.of_nat k)%N -> P a b = true.
Proof.
  intros H a b Ha Hb.
  apply (forall_below (P a) k); [|exact Hb].
  apply (forall_below (fun a => forallb (P a) (map N.of_nat (seq 0 k))) k H a Ha).
Qed.

Lemma sextet_alphabet n :
  (n < 64)%N ->
  Base64.sextet (Base64.alphabet n) = Some n
  /\ Ascii.eqb (Base64.alphabet n) Base64.pad = false.
Proof.
  intros Hn.
  pose proof (forall_below
    (fun n => match Base64.sextet (Base64.alphabet n) with
              | Some m => N.eqb m n
              | None => false
              end && negb (Ascii.eqb (Base64.alphabet n) Base64.pad)) 64
    ltac:(vm_compute; reflexivity) n Hn) as H.
  apply andb_true_iff in H. destruct H as [H1 H2].
  destruct (Base64.sextet (Base64.alphabet n)) as [m|]; [|discriminate].
  apply N.eqb_eq in H1. subst m. split; [reflexivity|].
  now apply negb_true_iff.
Qed.

Lemma sextets_bounded a b :
  (a < 256)%N -> (b < 256)%N ->
  (sx1 a < 64)%N /\ (sx2 a b < 64)%N /\ (sx3 a b < 64)%N /\ (sx4 a < 64)%N.
Proof.
  intros Ha Hb.
  pose proof (forall_below2
    (fun a b => (sx1 a <? 64)%N && (sx2 a b <? 64)%N && (sx3 a b <? 64)%N
                && (sx4 a <? 64)%N) 256
    ltac:(vm_compute; reflexivity) a b Ha Hb) as H.
  repeat (apply andb_true_iff in H; destruct H as [H ?]).
  repeat split; now apply N.ltb_lt.
Qed.

Lemma regroup_bits a b :
  (a < 256)%N -> (b < 256)%N ->
  N.lor (N.shiftl (sx1 a) 2) (N.shiftr (sx2 a b) 4) = a
  /\ N.land (sx2 a b) 15 = N.shiftr b 4
  /\ N.shiftr (sx3 a b) 2 = N.land a 15
  /\ N.lor (N.shiftl (N.shiftr a 4) 4) (N.land a 15) = a
  /\ N.lor (N.shiftl (N.land (sx3 a b) 3) 6) (sx4 b) = b.
Proof.
  intros Ha Hb.
  pose proof (forall_below2
    (fun a b =>
       (N.lor (N.shiftl (sx1 a) 2) (N.shiftr (sx2 a b) 4) =? a)%N
       && (N.land (sx2 a b) 15 =? N.shiftr b 4)%N
       && (N.shiftr (sx3 a b) 2 =? N.land a 15)%N
       && (N.lor (N.shiftl (N.shiftr a 4) 4) (N.land a 15) =? a)%N
       && (N.lor (N.shiftl (N.land (sx3 a b) 3) 6) (sx4 b) =? b)%N) 256
    ltac:(vm_compute; reflexivity) a b Ha Hb) as H.
  repeat (apply andb_true_iff in H; destruct H as [H ?]).
  repeat split; now apply N.eqb_eq.
Qed.

Lemma byte_to_N_lt (x : byte) : (Byte.to_N x < 256)%N.
Proof. pose proof (Byte.to_N_bounded x). lia. Qed.

Lemma byte_of_to_N (x : byte) : Base64.byte_of_N (Byte.to_N x) = x.
Proof.
  unfold Base64.byte_of_N.
  rewrite N.mod_small by apply byte_to_N_lt.
  now rewrite Byte.of_to_N.
Qed.

Lemma a2b_cons c t q l p :
  Base64.a2b (String c t) q l p =
  if Ascii.eqb c Base64.pad then
    if Nat.leb 2 q then
      if Nat.leb 4 (q + S p) then Some [] else Base64.a2b t q l (S p)
    else Base64.a2b t q l p
  else
    match Base64.sextet c with
    | None => Base64.a2b t q l p
    | Some v =>
        match q with
        | 0%nat => Base64.a2b t 1%nat v 0%nat
        | 1%nat =>
            option_map
              (cons (Base64.byte_of_N (N.lor (N.shiftl l 2) (N.shiftr v 4))))
              (Base64.a2b t 2%nat (N.land v 15) 0%nat)
        | 2%nat =>
            option_map
              (cons (Base64.byte_of_N (N.lor (N.shiftl l 4) (N.shiftr v 2))))
              (Base64.a2b t 3%nat (N.land v 3) 0%nat)
        | _ =>
            option_map
              (cons (Base64.byte_of_N (N.lor (N.shiftl l 6) v)))
              (Base64.a2b t 0%nat 0%N 0%nat)
        end
    end.
Proof. reflexivity. Qed.

Lemma a2b_alphabet n t q l p :
  (n < 64)%N ->
  Base64.a2b (String (Base64.alphabet n) t) q l p =
  match q with
  | 0%nat => Base64.a2b t 1%nat n 0%nat
  | 1%nat =>
      option_map
        (cons (Base64.byte_of_N (N.lor (N.shiftl l 2) (N.shiftr n 4))))
        (Base64.a2b t 2%nat (N.land n 15) 0%nat)
  | 2%nat =>
      option_map
        (cons (Base64.byte_of_N (N.lor (N.shiftl l 4) (N.shiftr n 2))))
        (Base64.a2b t 3%nat (N.land n 3) 0%nat)
  | _ =>
      option_map
        (cons (Base64.byte_of_N (N.lor (N.shiftl l 6) n)))
        (Base64.a2b t 0%nat 0%N 0%nat)
  end.
Proof.
  intros Hn. destruct (sextet_alphabet n Hn) as [Hs Hp].
  now rewrite a2b_cons, Hp, Hs.
Qed.

(** The first two characters of a group give back the first byte. *)
Lemma a2b_first_byte (x y : byte) t :
  Base64.a2b (String (Base64.enc1 (Byte.to_N x))
                (String (Base64.enc2 (Byte.to_N x) (Byte.to_N y)) t)) 0 0 0
  = option_map (cons x) (Base64.a2b t 2 (N.shiftr (Byte.to_N y) 4) 0).
Proof.
  pose proof (byte_to_N_lt x) as Hx. pose proof (byte_to_N_lt y) as Hy.
  destruct (sextets_bounded _ _ Hx Hy) as (B1 & B2 & _ & _).
  destruct (regroup_bits _ _ Hx Hy) as (R1 & R2 & _).
  change (Base64.enc1 (Byte.to_N x)) with (Base64.alphabet (sx1 (Byte.to_N x))).
  change (Base64.enc2 (Byte.to_N x) (Byte.to_N y))
    with (Base64.alphabet (sx2 (Byte.to_N x) (Byte.to_N y))).
  rewrite (a2b_alphabet _ _ 0 _ _ B1), (a2b_alphabet _ _ 1 _ _ B2).
  now rewrite R1, R2, byte_of_to_N.
Qed.

(** The third character gives back the second byte. *)
Lemma a2b_second_byte (y z : byte) t :
  Base64.a2b (String (Base64.enc3 (Byte.to_N y) (Byte.to_N z)) t)
    2 (N.shiftr (Byte.to_N y) 4) 0
  = option_map (cons y)
      (Base64.a2b t 3 (N.land (sx3 (Byte.to_N y) (Byte.to_N z)) 3) 0).
Proof.
  pose proof (byte_to_N_lt y) as Hy. pose proof (byte_to_N_lt z) as Hz.
  destruct (sextets_bounded _ _ Hy Hz) as (_ & _ & B3 & _).
  destruct (regroup_bits _ _ Hy Hz) as (_ & _ & R3 & R4 & _).
  change (Base64.enc3 (Byte.to_N y) (Byte.to_N z))
    with (Base64.alphabet (sx3 (Byte.to_N y) (Byte.to_N z))).
  rewrite (a2b_alphabet _ _ 2 _ _ B3).
  now rewrite R3, R4, byte_of_to_N.
Qed.

(** The fourth character gives back the third byte and closes the group. *)
Lemma a2b_third_byte (y z : byte) t :
  Base64.a2b (String (Base64.enc4 (Byte.to_N z)) t)
    3 (N.land (sx3 (Byte.to_N y) (Byte.to_N z)) 3) 0
  = option_map (cons z) (Base64.a2b t 0 0 0).
Proof.
  pose proof (byte_to_N_lt y) as Hy. pose proof (byte_to_N_lt z) as Hz.
  destruct (sextets_bounded _ _ Hz Hz) as (_ & _ & _ & B4).
  destruct (regroup_bits _ _ Hy Hz) as (_ & _ & _ & _ & R5).
  change (Base64.enc4 (Byte.to_N z)) with (Base64.alphabet (sx4 (Byte.to_N z))).
  rewrite (a2b_alphabet _ _ 3 _ _ B4).
  now rewrite R5, byte_of_to_N.
Qed.

Lemma list_ind3 {A} (P : list A -> Prop) :
  P [] -> (forall a, P [a]) -> (forall a b, P [a; b]) ->
  (forall a b c l, P l -> P (a :: b :: c :: l)) ->
  forall l, P l.
Proof.
  intros H0 H1 H2 H3 l.
  assert (H : P l /\ (forall a, P (a :: l)) /\ (forall a b, P (a :: b :: l))).
  { induction l as [|x l (I0 & I1 & I2)]; repeat split; auto. }
  apply H.
Qed.

Lemma a2b_b64encode (bs : list byte) :
  Base64.a2b (Base64.b64encode bs) 0 0 0 = Some bs.
Proof.
  induction bs as [|x|x y|x y z rest IH] using list_ind3.
  - reflexivity.
  - cbn [Base64.b64encode]. rewrite (a2b_first_byte x x00). reflexivity.
  - cbn [Base64.b64encode]. rewrite (a2b_first_byte x y).
    rewrite (a2b_second_byte y x00). reflexivity.
  - change (Base64.b64encode (x :: y :: z :: rest))
      with (String (Base64.enc1 (Byte.to_N x))
             (String (Base64.enc2 (Byte.to_N x) (Byte.to_N y))
               (String (Base64.enc3 (Byte.to_N y) (Byte.to_N z))
                 (String (Base64.enc4 (Byte.to_N z)) (Base64.b64encode rest))))).
    rewrite a2b_first_byte, a2b_second_byte, a2b_third_byte, IH. reflexivity.
Qed.

(** ** Line breaks and other characters the decoder skips *)

Lemma a2b_data_chars s :
  forall q l p, Base64.a2b s q l p = Base64.a2b (data_chars s) q l p.
Proof.
  induction s as [|c t IH]; intros q l p; [reflexivity|].
  cbn [data_chars]. unfold data_char.
  destruct (Ascii.eqb c Base64.pad) eqn:Hp; cbn [orb].
  - rewrite !a2b_cons, Hp.
    destruct (Nat.leb 2 q); [destruct (Nat.leb 4 (q + S p))|]; auto.
  - destruct (Base64.sextet c) as [v|] eqn:Hs.
    + rewrite !a2b_cons, Hp, Hs.
      destruct q as [|[|[|q]]]; now rewrite IH.
    + rewrite a2b_cons, Hp, Hs. apply IH.
Qed.

Lemma space_not_data c : Text.is_space c = true -> data_char c = false.
Proof.
  destruct c as [[] [] [] [] [] [] [] []]; vm_compute; congruence.
Qed.

Lemma data_chars_lstrip s : data_chars (Text.lstrip s) = data_chars s.
Proof.
  induction s as [|c t IH]; [reflexivity|].
  cbn [Text.lstrip]. destruct (Text.is_space c) eqn:Hc; [|reflexivity].
  cbn [data_chars]. now rewrite (space_not_data c Hc).
Qed.

Lemma data_chars_rstrip s : data_chars (Text.rstrip s) = data_chars s.
Proof.
  induction s as [|c t IH]; [reflexivity|].
  cbn [Text.rstrip]. destruct (Text.rstrip t) as [|c' t'] eqn:Hr.
  - destruct (Text.is_space c) eqn:Hc.
    + cbn [data_chars]. now rewrite (space_not_data c Hc), <- IH.
    + cbn [data_chars]. now rewrite <- IH.
  - cbn [data_chars] in *. now rewrite IH.
Qed.

Lemma data_chars_strip s : data_chars (Text.strip s) = data_chars s.
Proof. unfold Text.strip. now rewrite data_chars_rstrip, data_chars_lstrip. Qed.

Lemma is_ascii_lstrip s :
  Base64.is_ascii s = true -> Base64.is_ascii (Text.lstrip s) = true.
Proof.
  induction s as [|c t IH]; [reflexivity|].
  intros H. cbn [Text.lstrip]. destruct (Text.is_space c); [|exact H].
  cbn [Base64.is_ascii] in H. apply andb_true_iff in H. now apply IH.
Qed.

Lemma is_ascii_rstrip s :
  Base64.is_ascii s = true -> Base64.is_ascii (Text.rstrip s) = true.
Proof.
  induction s as [|c t IH]; [reflexivity|].
  intros H. cbn [Base64.is_ascii] in H. apply andb_true_iff in H.
  destruct H as [Hc Ht]. specialize (IH Ht).
  cbn [Text.rstrip]. destruct (Text.rstrip t) as [|c' t'].
  - destruct (Text.is_space c); [reflexivity|].
    cbn [Base64.is_ascii]. now rewrite Hc.
  - cbn [Base64.is_ascii] in *. now rewrite Hc, IH.
Qed.

(** Decoding undoes the encoding of any bytes, however the encoded text
    is broken into lines or surrounded by whitespace. *)
Lemma b64decode_of_encoding (payload : string) (bs : list byte) :
  Base64.is_ascii payload = true ->
  data_chars payload = Base64.b64encode bs ->
  Base64.b64decode (Text.strip payload) = inr bs.
Proof.
  intros Ha Hd. unfold Base64.b64decode, Text.strip.
  rewrite (is_ascii_rstrip _ (is_ascii_lstrip _ Ha)).
  fold (Text.strip payload).
  now rewrite a2b_data_chars, data_chars_strip, Hd, a2b_b64encode.
Qed.

Example b64decode_two_lines :
  Base64.b64decode
    (Text.strip ("aGVs" ++ Text.nl ++ "bG8=" ++ Text.nl))
  = inr [x68; x65; x6c; x6c; x6f].
Proof. now apply b64decode_of_encoding. Qed.

(** ** screenshot *)

Lemma screenshot_after_display env s c disp s1 payload err :
  ssh (self s) = Some c ->
  _get_display env (record EvTime s) = (Ret disp, s1) ->
  exec_reply env (hist s1) c (screenshot_cmd disp (time_reply env (hist s))) 15
  = ExecDone 0 payload err ->
  screenshot env s
  = (match Base64.b64decode (Text.strip payload) with
     | inr bytes => Ret bytes
     | inl e => Raise (Foreign e)
     end,
     record (EvExec (screenshot_cmd disp (time_reply env (hist s))) 15) s1).
Proof.
  intros Hs Hd Hr. unfold screenshot, bind at 1, ask.
  unfold bind at 1. rewrite Hd. unfold bind.
  assert (H1 : ssh (self s1) = Some c).
  { pose proof (_get_display_keeps_self env (record EvTime s)) as Hk.
    rewrite Hd in Hk. simpl in Hk. now rewrite Hk. }
  rewrite (_run_connected env _ _ s1 c H1), Hr. simpl.
  destruct (Base64.b64decode (Text.strip payload)); reflexivity.
Qed.

(** C5: take a controller with a session open on which display detection
    returns [disp], and let the capture command exit 0 with [payload] on
    its stdout.  When [payload], with its surrounding whitespace removed,
    is base64 text that decodes to [bytes], [screenshot] returns exactly
    [bytes]. *)
Theorem screenshot_spec env s c disp s1 payload err bytes :
  ssh (self s) = Some c ->
  _get_display env (record EvTime s) = (Ret disp, s1) ->
  exec_reply env (hist s1) c (screenshot_cmd disp (time_reply env (hist s))) 15
  = ExecDone 0 payload err ->
  Base64.b64decode (Text.strip payload) = inr bytes ->
  screenshot env s
  = (Ret bytes,
     record (EvExec (screenshot_cmd disp (time_reply env (hist s))) 15) s1).
Proof.
  intros Hs Hd Hr Hb.
  rewrite (screenshot_after_display env s c disp s1 payload err Hs Hd Hr).
  now rewrite Hb.
Qed.

Lemma screenshot_spec_witness :
  fst (screenshot StubShot.env_fixed_payload
         (Stub.connected StubShot.env_fixed_payload))
  = Ret [x68; x65; x6c; x6c; x6f].
Proof.
  rewrite (screenshot_spec StubShot.env_fixed_payload
             (Stub.connected StubShot.env_fixed_payload)
             {| transport_open := true |} ":0"
             (record (EvExec (probe_cmd ":0") 2)
                (record EvTime (Stub.connected StubShot.env_fixed_payload)))
             ("aGVsbG8=" ++ Text.nl) "" [x68; x65; x6c; x6c; x6f]
             eq_refl eq_refl eq_refl eq_refl).
  reflexivity.
Defined.

(** What [screenshot] returns when the remote tool prints the encoding of
    an image, in lines of any length: the image. *)
Lemma screenshot_returns_image env s c disp s1 payload err image :
  ssh (self s) = Some c ->
  _get_display env (record EvTime s) = (Ret disp, s1) ->
  exec_reply env (hist s1) c (screenshot_cmd disp (time_reply env (hist s))) 15
  = ExecDone 0 payload err ->
  Base64.is_ascii payload = true ->
  data_chars payload = Base64.b64encode image ->
  fst (screenshot env s) = Ret image.
Proof.
  intros Hs Hd Hr Ha He.
  rewrite (screenshot_after_display env s c disp s1 payload err Hs Hd Hr).
  now rewrite (b64decode_of_encoding payload image Ha He).
Qed.

(** A payload that is not base64 text makes [screenshot] raise the
    decoder's exception. *)
Lemma screenshot_bad_payload env s c disp s1 payload err e :
  ssh (self s) = Some c ->
  _get_display env (record EvTime s) = (Ret disp, s1) ->
  exec_reply env (hist s1) c (screenshot_cmd disp (time_reply env (hist s))) 15
  = ExecDone 0 payload err ->
  Base64.b64decode (Text.strip payload) = inl e ->
  fst (screenshot env s) = Raise (Foreign e).
Proof.
  intros Hs Hd Hr Hb.
  rewrite (screenshot_after_display env s c disp s1 payload err Hs Hd Hr).
  now rewrite Hb.
Qed.

(** * Part three: further properties of the class *)

(** ** The controller object across the actions *)

Lemma keeps_ret {A} (a : A) : keeps_self (ret a).
Proof. intros s. reflexivity. Qed.

Lemma keeps_raise {A} (e : exn) : keeps_self (@raise A e).
Proof. intros s. reflexivity. Qed.

Lemma keeps_ask {A} ev (answer : list Event -> A) : keeps_self (ask ev answer).
Proof. intros s. reflexivity. Qed.

Lemma keeps_get_ssh : keeps_self get_ssh.
Proof. intros s. reflexivity. Qed.

Lemma keeps_bind {A B} (m : M A) (k : A -> M B) :
  keeps_self m -> (forall a, keeps_self (k a)) -> keeps_self (bind m k).
Proof.
  intros Hm Hk s. unfold bind. specialize (Hm s).
  destruct (m s) as [[a|e] s']; simpl in *.
  - now rewrite Hk.
  - exact Hm.
Qed.

Lemma keeps_try {A} (body handler : M A) :
  keeps_self body -> keeps_self handler ->
  keeps_self (try_except_VMError body handler).
Proof.
  intros Hb Hh s. unfold try_except_VMError. specialize (Hb s).
  destruct (body s) as [[a|[m|x]] s']; simpl in *; try exact Hb.
  now rewrite Hh.
Qed.

Lemma keeps_for_range n (body : M unit) :
  keeps_self body -> keeps_self (for_range n body).
Proof.
  intros Hb. induction n as [|n IH]; simpl.
  - apply keeps_ret.
  - apply keeps_bind; auto.
Qed.

Lemma keeps__run env cmd t : keeps_self (_run env cmd t).
Proof.
  unfold _run. apply keeps_bind; [apply keeps_get_ssh|].
  intros [c|]; [|apply keeps_raise].
  apply keeps_bind; [apply keeps_ask|].
  intros [code out err|e]; [|apply keeps_raise].
  destruct (negb (code =? 0)%Z); [apply keeps_raise | apply keeps_ret].
Qed.

Lemma keeps_probe_displays env l : keeps_self (probe_displays env l).
Proof.
  induction l as [|d l IH]; simpl.
  - apply keeps_ret.
  - apply keeps_try; [|exact IH].
    apply keeps_bind; [apply keeps__run | intros; apply keeps_ret].
Qed.

Lemma keeps_run_unit env cmd t : keeps_self (_run env cmd t ;; ret tt).
Proof. apply keeps_bind; [apply keeps__run | intros; apply keeps_ret]. Qed.

(** X1: no remote action changes the controller object.  Whatever the
    environment answers and however the call ends (a value, [VMError], a
    library exception), [_run], [_get_display], [screenshot], [move_mouse],
    [click], [type_text] and [press_key] leave every field, the session
    field included, as it was: a failed command neither drops nor reopens
    the session. *)
Theorem actions_keep_controller env :
  (forall cmd t, keeps_self (_run env cmd t))
  /\ keeps_self (_get_display env)
  /\ keeps_self (screenshot env)
  /\ (forall x y, keeps_self (move_mouse env x y))
  /\ (forall button clicks, keeps_self (click env button clicks))
  /\ (forall text, keeps_self (type_text env text))
  /\ (forall key, keeps_self (press_key env key)).
Proof.
  assert (Hd : keeps_self (_get_display env)) by apply keeps_probe_displays.
  repeat split; intros.
  - apply keeps__run.
  - exact Hd.
  - unfold screenshot. apply keeps_bind; [apply keeps_ask|]. intros ts.
    apply keeps_bind; [exact Hd|]. intros disp.
    apply keeps_bind; [apply keeps__run|]. intros b64.
    destruct (Base64.b64decode (Text.strip b64));
      [apply keeps_raise | apply keeps_ret].
  - unfold move_mouse. apply keeps_bind; [exact Hd|]. intros disp.
    apply keeps_run_unit.
  - unfold click. apply keeps_bind; [exact Hd|]. intros disp.
    apply keeps_for_range, keeps_run_unit.
  - unfold type_text. apply keeps_bind; [exact Hd|]. intros disp.
    apply keeps_run_unit.
  - unfold press_key. apply keeps_bind; [exact Hd|]. intros disp.
    apply keeps_run_unit.
Qed.

(** ** When [Not connected] is raised *)

Lemma no_nc_ret {A} (a : A) : no_not_connected (ret a).
Proof. intros s c _. discriminate. Qed.

Lemma no_nc_foreign {A} (e : string) : no_not_connected (@raise A (Foreign e)).
Proof. intros s c _. discriminate. Qed.

Lemma no_nc_bind {A B} (m : M A) (k : A -> M B) :
  keeps_self m -> no_not_connected m -> (forall a, no_not_connected (k a)) ->
  no_not_connected (bind m k).
Proof.
  intros Hk Hm Hka s c Hs. unfold bind.
  specialize (Hk s). specialize (Hm s c Hs).
  destruct (m s) as [[a|e] s']; simpl in *.
  - apply (Hka a s' c). now rewrite Hk.
  - intros H. apply Hm. injection H as ->. reflexivity.
Qed.

Lemma no_nc_try {A} (body handler : M A) :
  keeps_self body -> no_not_connected handler ->
  no_not_connected (try_except_VMError body handler).
Proof.
  intros Hk Hh s c Hs. unfold try_except_VMError. specialize (Hk s).
  destruct (body s) as [[a|[m|x]] s']; simpl in *; try discriminate.
  apply (Hh s' c). now rewrite Hk.
Qed.

Lemma no_nc_for_range n (body : M unit) :
  keeps_self body -> no_not_connected body ->
  no_not_connected (for_range n body).
Proof.
  intros Hk Hb. induction n as [|n IH]; simpl.
  - apply no_nc_ret.
  - apply no_nc_bind; auto.
Qed.

Lemma no_nc__run env cmd t : no_not_connected (_run env cmd t).
Proof.
  intros s c Hs. rewrite (_run_connected env cmd t s c Hs). simpl.
  destruct (exec_reply env (hist s) c cmd t) as [code out err|e];
    [|discriminate].
  destruct (code =? 0)%Z; discriminate.
Qed.

Lemma no_nc_probe_displays env l : no_not_connected (probe_displays env l).
Proof.
  induction l as [|d l IH]; simpl.
  - apply no_nc_ret.
  - apply no_nc_try; [|exact IH].
    apply keeps_bind; [apply keeps__run | intros; apply keeps_ret].
Qed.

Lemma no_nc_run_unit env cmd t : no_not_connected (_run env cmd t ;; ret tt).
Proof.
  apply no_nc_bind; [apply keeps__run | apply no_nc__run |].
  intros; apply no_nc_ret.
Qed.

(** X2: [VMError("Not connected")] means exactly that the session field is
    [None].  [_run] raises it if and only if the field is [None]; and when
    the field holds a client, whatever state that client is in, none of the
    five actions raises it. *)
Theorem not_connected_only_without_session env s :
  (forall cmd t,
      fst (_run env cmd t s) = Raise not_connected_error <-> ssh (self s) = None)
  /\ (ssh (self s) <> None ->
      fst (screenshot env s) <> Raise not_connected_error
      /\ (forall x y, fst (move_mouse env x y s) <> Raise not_connected_error)
      /\ (forall button clicks,
             fst (click env button clicks s) <> Raise not_connected_error)
      /\ (forall text, fst (type_text env text s) <> Raise not_connected_error)
      /\ (forall key, fst (press_key env key s) <> Raise not_connected_error)).
Proof.
  split.
  - intros cmd t. split.
    + intros H. destruct (ssh (self s)) as [c|] eqn:Hs; [|reflexivity].
      exfalso. exact (no_nc__run env cmd t s c Hs H).
    + intros Hs. now rewrite _run_not_connected.
  - intros Hs. destruct (ssh (self s)) as [c|] eqn:Hc; [clear Hs|congruence].
    assert (Hd : no_not_connected (_get_display env))
      by apply no_nc_probe_displays.
    assert (Kd : keeps_self (_get_display env)) by apply keeps_probe_displays.
    repeat split; intros.
    + apply (fun H => H s c Hc). unfold screenshot.
      apply no_nc_bind; [apply keeps_ask | intros s0 c0 _; discriminate |].
      intros ts. apply no_nc_bind; [exact Kd | exact Hd |]. intros disp.
      apply no_nc_bind; [apply keeps__run | apply no_nc__run |]. intros b64.
      destruct (Base64.b64decode (Text.strip b64));
        [apply no_nc_foreign | apply no_nc_ret].
    + apply (fun H => H s c Hc). unfold move_mouse.
      apply no_nc_bind; [exact Kd | exact Hd |]. intros disp.
      apply no_nc_run_unit.
    + apply (fun H => H s c Hc). unfold click.
      apply no_nc_bind; [exact Kd | exact Hd |]. intros disp.
      apply no_nc_for_range; [apply keeps_run_unit | apply no_nc_run_unit].
    + apply (fun H => H s c Hc). unfold type_text.
      apply no_nc_bind; [exact Kd | exact Hd |]. intros disp.
      apply no_nc_run_unit.
    + apply (fun H => H s c Hc). unfold press_key.
      apply no_nc_bind; [exact Kd | exact Hd |]. intros disp.
      apply no_nc_run_unit.
Qed.

Lemma not_connected_only_without_session_witness :
  ssh (self (Stub.connected Stub.env_auth_fails)) <> None
  /\ fst (click Stub.env_auth_fails "left" 2 (Stub.connected Stub.env_auth_fails))
     <> Raise not_connected_error.
Proof.
  assert (H : ssh (self (Stub.connected Stub.env_auth_fails)) <> None)
    by discriminate.
  split; [exact H|].
  destruct (not_connected_only_without_session Stub.env_auth_fails
              (Stub.connected Stub.env_auth_fails)) as [_ Hact].
  destruct (Hact H) as (_ & _ & Hclick & _).
  apply Hclick.
Defined.

(** ** What display detection sends *)

Lemma app_neq_self {A} (l l' : list A) : l' <> [] -> (l ++ l')%list <> l.
Proof.
  intros Hl H. apply (f_equal (@List.length A)) in H.
  rewrite length_app in H. destruct l'; [congruence | simpl in H; lia].
Qed.

(** X3: [_get_display] answers [":0"] or [":1"] or raises a library
    exception, never [VMError]; it sends nothing when there is no session,
    and otherwise the probe of [":0"] alone or the probes of [":0"] and
    [":1"] in this order, each with a timeout of 2 seconds, and no other
    command. *)
Theorem get_display_footprint env s :
  (fst (_get_display env s) = Ret ":0"
   \/ fst (_get_display env s) = Ret ":1"
   \/ exists e, fst (_get_display env s) = Raise (Foreign e))
  /\ (hist (snd (_get_display env s)) = hist s
      \/ hist (snd (_get_display env s)) = (hist s ++ [probe_event ":0"])%list
      \/ hist (snd (_get_display env s))
         = (hist s ++ [probe_event ":0"; probe_event ":1"])%list)
  /\ (hist (snd (_get_display env s)) = hist s <-> ssh (self s) = None).
Proof.
  destruct (ssh (self s)) as [c|] eqn:Hs.
  - rewrite (_get_display_connected env s c Hs). cbv zeta.
    destruct (exec_reply env (hist s) c (probe_cmd ":0") 2) as [c0 o0 e0|x0];
      [destruct (c0 =? 0)%Z;
       [|destruct (exec_reply env _ c (probe_cmd ":1") 2) as [c1 o1 e1|x1];
         [destruct (c1 =? 0)%Z|]]|];
      simpl; rewrite <- ?app_assoc; simpl;
      (split; [eauto|]); (split; [auto|]);
      (split; [intros H; exfalso; revert H; apply app_neq_self; discriminate
              | discriminate]).
  - rewrite (_get_display_not_connected env s Hs). simpl.
    split; [auto|]. split; [auto|]. split; auto.
Qed.

(** ** connect and disconnect together *)

(** X4: [connect] never closes a client.  Its requests are the loading of
    the host keys and, when that succeeds, one connection attempt to the
    controller's own host, user and key with a timeout of 10 seconds; a
    client that was in the session field before the call is replaced
    without a [close], and after the call, however it ends, the session
    field holds a client. *)
Theorem connect_never_closes env s :
  exists l,
    hist (snd (connect env s)) = (hist s ++ l)%list
    /\ ~ In EvClose l
    /\ (l = [EvLoadHostKeys]
        \/ l = [EvLoadHostKeys;
                EvConnect (ssh_host (self s)) (ssh_user (self s))
                  (ssh_key (self s)) 10])
    /\ ssh (self (snd (connect env s))) <> None.
Proof.
  rewrite connect_steps. cbv zeta.
  destruct (load_host_keys_reply env (hist s)) as [e|].
  - exists [EvLoadHostKeys]. simpl. repeat split; auto.
    + intros [H|[]]. discriminate.
    + discriminate.
  - exists [EvLoadHostKeys;
            EvConnect (ssh_host (self s)) (ssh_user (self s)) (ssh_key (self s)) 10].
    destruct (connect_reply env _ _ _ _ _) as [e|]; simpl;
      rewrite <- app_assoc; simpl; repeat split; auto;
      try (intros [H|[H|[]]]; discriminate); discriminate.
Qed.

Lemma self_eta (v : VM) :
  {| name := name v; ssh_host := ssh_host v; ssh_user := ssh_user v;
     ssh_key := ssh_key v; ssh := ssh v |} = v.
Proof. now destruct v. Qed.

(** X5: on a controller with no session, [connect] followed by
    [disconnect] gives back the controller object exactly as it was,
    whether the connection succeeded or raised: [disconnect] closes the
    client [connect] stored (one [close]) and does not raise. *)
Theorem connect_disconnect_roundtrip env s :
  ssh (self s) = None ->
  disconnect (snd (connect env s))
  = (Ret tt,
     with_hist s (hist (snd (connect env s)) ++ [EvClose])).
Proof.
  intros Hs. rewrite connect_steps. cbv zeta.
  destruct (load_host_keys_reply env (hist s)) as [e|].
  - simpl snd. erewrite disconnect_open by reflexivity.
    unfold with_ssh, with_hist, record, set_ssh. simpl. f_equal. f_equal.
    rewrite <- Hs. apply self_eta.
  - destruct (connect_reply env _ _ _ _ _) as [e|]; simpl snd;
      erewrite disconnect_open by reflexivity;
      unfold with_ssh, with_hist, record, set_ssh; simpl; f_equal; f_equal;
      rewrite <- Hs; apply self_eta.
Qed.

Lemma connect_disconnect_roundtrip_witness :
  ssh (self (Stub.fresh Stub.env_auth_fails)) = None
  /\ self (snd (disconnect (snd (connect Stub.env_auth_fails
                                    (Stub.fresh Stub.env_auth_fails)))))
     = self (Stub.fresh Stub.env_auth_fails).
Proof.
  split; [reflexivity|].
  rewrite (connect_disconnect_roundtrip Stub.env_auth_fails
             (Stub.fresh Stub.env_auth_fails) eq_refl).
  reflexivity.
Defined.

(** ** click when a click command fails *)

Lemma run_then_unit_fail env c cmd t s e :
  ssh (self s) = Some c ->
  failure_of (exec_reply env (hist s) c cmd t) = Some e ->
  (_run env cmd t ;; ret tt) s = (Raise e, record (EvExec cmd t) s).
Proof.
  intros Hs Hf. unfold bind. rewrite (_run_connected env cmd t s c Hs).
  unfold failure_of, command_failed_msg in Hf.
  destruct (exec_reply env (hist s) c cmd t) as [code out err|x].
  - destruct (code =? 0)%Z; [discriminate|]. now injection Hf as <-.
  - now injection Hf as <-.
Qed.

Lemma for_range_run_fail env c cmd t e :
  forall j n s,
    ssh (self s) = Some c ->
    (j < n)%nat ->
    (forall k, (k < j)%nat -> exists out err,
        exec_reply env (hist s ++ repeat (EvExec cmd t) k) c cmd t
        = ExecDone 0 out err) ->
    failure_of (exec_reply env (hist s ++ repeat (EvExec cmd t) j) c cmd t)
    = Some e ->
    for_range n (_run env cmd t ;; ret tt) s
    = (Raise e, with_hist s (hist s ++ repeat (EvExec cmd t) (S j))).
Proof.
  induction j as [|j IH]; intros n s Hs Hn Hok Hf;
    (destruct n as [|n]; [lia|]); simpl for_range; unfold bind at 1.
  - simpl in Hf. rewrite app_nil_r in Hf.
    rewrite (run_then_unit_fail env c cmd t s e Hs Hf). reflexivity.
  - destruct (Hok 0%nat ltac:(lia)) as (out & err & H0).
    simpl in H0. rewrite app_nil_r in H0.
    rewrite (run_then_unit_ok env c cmd t s out err Hs H0).
    rewrite (IH n (record (EvExec cmd t) s) Hs ltac:(lia)).
    + unfold with_hist. simpl. now rewrite <- app_assoc.
    + intros k Hk. destruct (Hok (S k) ltac:(lia)) as (o & e' & Hr).
      exists o, e'. simpl hist. rewrite <- app_assoc. exact Hr.
    + simpl hist. rewrite <- app_assoc. exact Hf.
Qed.

(** X6: [click] stops at the first click command that fails.  With a
    session open and display detection returning [disp], if the first [j]
    click commands exit 0 and the next one, still within [clicks], exits
    non-zero or raises, then [click] raises that command's exception
    ([VMError] with the exit code and stderr, or the library's exception)
    after sending exactly [j + 1] click commands; the remaining clicks are
    not sent and the [j] clicks already made are not undone. *)
Theorem click_stops_at_first_failure env s c button clicks disp s1 j e :
  ssh (self s) = Some c ->
  _get_display env s = (Ret disp, s1) ->
  (j < Z.to_nat clicks)%nat ->
  (forall k, (k < j)%nat -> exists out err,
      exec_reply env
        (hist s1 ++ repeat (EvExec (click_cmd disp (spec_button_code button)) 10) k)
        c (click_cmd disp (spec_button_code button)) 10
      = ExecDone 0 out err) ->
  failure_of
    (exec_reply env
       (hist s1 ++ repeat (EvExec (click_cmd disp (spec_button_code button)) 10) j)
       c (click_cmd disp (spec_button_code button)) 10)
  = Some e ->
  click env button clicks s
  = (Raise e,
     with_hist s1
       (hist s1
        ++ repeat (EvExec (click_cmd disp (spec_button_code button)) 10) (S j))).
Proof.
  intros Hs Hd Hj Hok Hf. unfold click, bind. rewrite Hd.
  rewrite button_code_refines.
  apply for_range_run_fail with c; auto.
  pose proof (keeps_probe_displays env [":0"; ":1"] s) as Hk.
  fold (_get_display env) in Hk. rewrite Hd in Hk. simpl in Hk. now rewrite Hk.
Qed.

Lemma click_stops_at_first_failure_witness :
  click StubMore.env_third_click_fails "left" 5
    (Stub.connected StubMore.env_third_click_fails)
  = (Raise (VMError "Command failed (exit 5): no such window"),
     with_hist (Stub.connected StubMore.env_third_click_fails)
       (hist (Stub.connected StubMore.env_third_click_fails)
        ++ [EvExec "DISPLAY=:0 xdotool getdisplaygeometry" 2;
            EvExec "DISPLAY=:0 xdotool click 1" 10;
            EvExec "DISPLAY=:0 xdotool click 1" 10;
            EvExec "DISPLAY=:0 xdotool click 1" 10])).
Proof.
  rewrite (click_stops_at_first_failure StubMore.env_third_click_fails
             (Stub.connected StubMore.env_third_click_fails)
             {| transport_open := true |} "left" 5 ":0"
             (record (EvExec (probe_cmd ":0") 2)
                (Stub.connected StubMore.env_third_click_fails))
             2 (VMError "Command failed (exit 5): no such window")
             eq_refl eq_refl ltac:(simpl; lia)).
  - reflexivity.
  - intros k Hk. exists "", "".
    destruct k as [|[|k]]; [reflexivity | reflexivity | lia].
  - reflexivity.
Defined.

(** ** The commands as the remote shell reads them *)

Lemma str_app_assoc (a b c : string) : (a ++ b) ++ c = a ++ b ++ c.
Proof. induction a as [|x a IH]; simpl; [reflexivity | now rewrite IH]. Qed.

Lemma str_app_nil_r (a : string) : a ++ "" = a.
Proof. induction a as [|x a IH]; simpl; [reflexivity | now rewrite IH]. Qed.

Lemma safe_is_bare c :
  Shlex.is_safe c = true ->
  Ascii.eqb c Shlex.squote = false
  /\ Ascii.eqb c Shlex.dquote = false
  /\ Shell.is_blank c = false.
Proof.
  destruct c as [[] [] [] [] [] [] [] []]; vm_compute; intros; repeat split;
    congruence.
Qed.

Lemma pushed_push cur c t :
  pushed (Shell.push cur c) t = Some (Shell.word_of cur ++ String c t).
Proof.
  destruct t as [|d t]; simpl.
  - reflexivity.
  - now rewrite str_app_assoc.
Qed.

(** Bare characters extend the word being read. *)
Lemma split_bare s :
  forall r cur,
    Shlex.all_safe s = true ->
    Shell.split (s ++ r) Shell.Plain cur = Shell.split r Shell.Plain (pushed cur s).
Proof.
  induction s as [|c t IH]; intros r cur Hs; [reflexivity|].
  simpl in Hs. apply andb_true_iff in Hs. destruct Hs as [Hc Ht].
  destruct (safe_is_bare c Hc) as (H1 & H2 & H3).
  simpl append. cbn [Shell.split]. rewrite H1, H2, H3, Hc.
  rewrite (IH r _ Ht). now rewrite pushed_push.
Qed.

(** Inside single quotes, the escaped text reads back as the text. *)
Lemma split_escaped s :
  forall r w,
    Shell.split (Shlex.escape_squotes s ++ String Shlex.squote r)
      Shell.InSingle (Some w)
    = Shell.split r Shell.Plain (Some (w ++ s)).
Proof.
  induction s as [|c t IH]; intros r w.
  - simpl. now rewrite str_app_nil_r.
  - cbn [Shlex.escape_squotes].
    destruct (Ascii.eqb c Shlex.squote) eqn:Hc.
    + apply Ascii.eqb_eq in Hc. subst c.
      unfold Shlex.quote_escape. simpl append.
      cbn [Shell.split Shell.word_of]. simpl Ascii.eqb. cbv iota.
      change (Shell.expands_in_double Shlex.squote) with false. cbv iota.
      unfold Shell.push, Shell.word_of.
      rewrite IH. now rewrite str_app_assoc.
    + simpl append. cbn [Shell.split]. rewrite Hc.
      unfold Shell.push, Shell.word_of.
      rewrite IH. now rewrite str_app_assoc.
Qed.

(** What [shlex.quote] writes reads back as one word, the text itself. *)
Lemma split_quote s r cur :
  Shell.split (Shlex.quote s ++ r) Shell.Plain cur
  = Shell.split r Shell.Plain (Some (Shell.word_of cur ++ s)).
Proof.
  destruct s as [|c t].
  - simpl. now rewrite str_app_nil_r.
  - unfold Shlex.quote.
    destruct (Shlex.all_safe (String c t)) eqn:Hs.
    + now rewrite (split_bare _ r cur Hs).
    + remember (Shlex.escape_squotes (String c t)) as esc eqn:He.
      rewrite str_app_assoc. simpl append.
      cbn [Shell.split]. simpl Ascii.eqb. cbv iota.
      subst esc. apply split_escaped.
Qed.

Lemma get_display_candidates env s disp s1 :
  _get_display env s = (Ret disp, s1) -> disp = ":0" \/ disp = ":1".
Proof.
  destruct (ssh (self s)) as [c|] eqn:Hs.
  - rewrite (_get_display_connected env s c Hs). cbv zeta.
    destruct (exec_reply env (hist s) c (probe_cmd ":0") 2) as [c0 o0 e0|x0];
      [destruct (c0 =? 0)%Z;
       [|destruct (exec_reply env _ c (probe_cmd ":1") 2) as [c1 o1 e1|x1];
         [destruct (c1 =? 0)%Z|]]|];
      intros H; injection H as H _; try discriminate; auto.
  - rewrite (_get_display_not_connected env s Hs).
    intros H; injection H as H _; auto.
Qed.

Lemma split_word_then_blank w r :
  Shlex.all_safe w = true -> w <> "" ->
  Shell.split (w ++ String " " r) Shell.Plain None
  = option_map (cons w) (Shell.split r Shell.Plain None).
Proof.
  intros Hs Hw. rewrite (split_bare w _ None Hs).
  destruct w as [|c t]; [congruence|]. reflexivity.
Qed.

Lemma split_last_word w :
  Shlex.all_safe w = true -> w <> "" ->
  Shell.split w Shell.Plain None = Some [w].
Proof.
  intros Hs Hw. rewrite <- (str_app_nil_r w) at 1.
  rewrite (split_bare w _ None Hs).
  destruct w as [|c t]; [congruence|]. reflexivity.
Qed.

Lemma snd_run_unit env cmd t s c :
  ssh (self s) = Some c ->
  snd ((_run env cmd t ;; ret tt) s) = record (EvExec cmd t) s.
Proof.
  intros Hs. unfold bind. rewrite (_run_connected env cmd t s c Hs).
  destruct (exec_reply env (hist s) c cmd t) as [code out err|e];
    [destruct (code =? 0)%Z|]; reflexivity.
Qed.

Lemma get_display_keeps_client env s c disp s1 :
  ssh (self s) = Some c -> _get_display env s = (Ret disp, s1) ->
  ssh (self s1) = Some c.
Proof.
  intros Hs Hd. pose proof (keeps_probe_displays env [":0"; ":1"] s) as Hk.
  fold (_get_display env) in Hk. rewrite Hd in Hk. simpl in Hk. now rewrite Hk.
Qed.

(** X7: the text of [type_text] and the key of [press_key] reach the
    remote tool as one literal argument.  With a session open and display
    detection returning [disp], each of the two methods sends one command
    after the probes, and a shell splits that command into the assignment
    of [DISPLAY], [xdotool], the subcommand (with [--clearmodifiers] for
    [type]) and one last word that is the given string character for
    character, whatever quotes, blanks or shell operators it holds. *)
Theorem quoted_argument_is_one_word env s c disp s1 text :
  ssh (self s) = Some c ->
  _get_display env s = (Ret disp, s1) ->
  snd (type_text env text s)
  = record (EvExec (type_cmd disp (Shlex.quote text)) 10) s1
  /\ Shell.words (type_cmd disp (Shlex.quote text))
     = Some ["DISPLAY=" ++ disp; "xdotool"; "type"; "--clearmodifiers"; text]
  /\ snd (press_key env text s)
     = record (EvExec (key_cmd disp (Shlex.quote text)) 10) s1
  /\ Shell.words (key_cmd disp (Shlex.quote text))
     = Some ["DISPLAY=" ++ disp; "xdotool"; "key"; text].
Proof.
  intros Hs Hd.
  pose proof (get_display_keeps_client env s c disp s1 Hs Hd) as H1.
  assert (Hsafe : Shlex.all_safe ("DISPLAY=" ++ disp) = true
                  /\ "DISPLAY=" ++ disp <> "").
  { destruct (get_display_candidates env s disp s1 Hd) as [-> | ->];
      split; [reflexivity | discriminate | reflexivity | discriminate]. }
  destruct Hsafe as [Hsafe Hne].
  repeat split.
  - unfold type_text. unfold bind at 1. rewrite Hd.
    apply (snd_run_unit env _ _ s1 c H1).
  - unfold Shell.words.
    replace (type_cmd disp (Shlex.quote text))
      with (("DISPLAY=" ++ disp) ++ String " " ("xdotool" ++ String " "
             ("type" ++ String " " ("--clearmodifiers" ++ String " "
               (Shlex.quote text ++ "")))))
      by (rewrite str_app_nil_r, str_app_assoc; reflexivity).
    rewrite (split_word_then_blank _ _ Hsafe Hne).
    rewrite (split_word_then_blank "xdotool") by (reflexivity || discriminate).
    rewrite (split_word_then_blank "type") by (reflexivity || discriminate).
    rewrite (split_word_then_blank "--clearmodifiers")
      by (reflexivity || discriminate).
    rewrite split_quote. reflexivity.
  - unfold press_key. unfold bind at 1. rewrite Hd.
    apply (snd_run_unit env _ _ s1 c H1).
  - unfold Shell.words.
    replace (key_cmd disp (Shlex.quote text))
      with (("DISPLAY=" ++ disp) ++ String " " ("xdotool" ++ String " "
             ("key" ++ String " " (Shlex.quote text ++ ""))))
      by (rewrite str_app_nil_r, str_app_assoc; reflexivity).
    rewrite (split_word_then_blank _ _ Hsafe Hne).
    rewrite (split_word_then_blank "xdotool") by (reflexivity || discriminate).
    rewrite (split_word_then_blank "key") by (reflexivity || discriminate).
    rewrite split_quote. reflexivity.
Qed.

Lemma quoted_argument_is_one_word_witness :
  Shell.words (type_cmd ":0" (Shlex.quote "it's; rm -rf ~ $HOME"))
  = Some ["DISPLAY=:0"; "xdotool"; "type"; "--clearmodifiers";
          "it's; rm -rf ~ $HOME"].
Proof.
  destruct (quoted_argument_is_one_word Stub.env_ok (Stub.connected Stub.env_ok)
              {| transport_open := true |} ":0"
              (record (EvExec (probe_cmd ":0") 2) (Stub.connected Stub.env_ok))
              "it's; rm -rf ~ $HOME" eq_refl eq_refl) as (_ & H & _).
  exact H.
Defined.

(** ** The coordinates of [move_mouse] *)

Lemma numeric_uint d : numeric (NilEmpty.string_of_uint d) = true.
Proof. induction d; simpl; auto. Qed.

Lemma str_of_int_numeric n : numeric (Text.str_of_int n) = true.
Proof.
  unfold Text.str_of_int, NilZero.string_of_int, NilZero.string_of_uint.
  destruct (Z.to_int n) as [d|d]; destruct d; simpl; auto using numeric_uint.
Qed.

Lemma numeric_safe s : numeric s = true -> Shlex.all_safe s = true.
Proof.
  induction s as [|c t IH]; [reflexivity|].
  simpl. intros H. apply andb_true_iff in H. destruct H as [Hc Ht].
  rewrite (IH Ht), andb_true_r. revert Hc. clear.
  destruct c as [[] [] [] [] [] [] [] []]; vm_compute; congruence.
Qed.

Lemma str_of_int_nonempty n : Text.str_of_int n <> "".
Proof.
  unfold Text.str_of_int, NilZero.string_of_int, NilZero.string_of_uint.
  destruct (Z.to_int n) as [d|d]; destruct d; simpl; discriminate.
Qed.

Lemma read_str_of_int n : read_int (Text.str_of_int n) = Some n.
Proof.
  unfold read_int, Text.str_of_int. rewrite NilZero.isi.
  - simpl. now rewrite DecimalZ.of_to.
  - destruct n; simpl; try discriminate;
      intros H; injection H as H; now apply DecimalPos.Unsigned.to_uint_nonnil in H.
  - destruct n; simpl; try discriminate;
      intros H; injection H as H; now apply DecimalPos.Unsigned.to_uint_nonnil in H.
Qed.

(** X8: [move_mouse] sends, after the probes, one command that a shell
    splits into five words, the last two being the decimal numerals of [x]
    and [y]; read back as integers they are [x] and [y], negative values
    included. *)
Theorem move_mouse_command_words env s c disp s1 x y :
  ssh (self s) = Some c ->
  _get_display env s = (Ret disp, s1) ->
  snd (move_mouse env x y s) = record (EvExec (move_cmd disp x y) 10) s1
  /\ Shell.words (move_cmd disp x y)
     = Some ["DISPLAY=" ++ disp; "xdotool"; "mousemove";
             Text.str_of_int x; Text.str_of_int y]
  /\ read_int (Text.str_of_int x) = Some x
  /\ read_int (Text.str_of_int y) = Some y.
Proof.
  intros Hs Hd.
  pose proof (get_display_keeps_client env s c disp s1 Hs Hd) as H1.
  assert (Hsafe : Shlex.all_safe ("DISPLAY=" ++ disp) = true
                  /\ "DISPLAY=" ++ disp <> "").
  { destruct (get_display_candidates env s disp s1 Hd) as [-> | ->];
      split; [reflexivity | discriminate | reflexivity | discriminate]. }
  destruct Hsafe as [Hsafe Hne].
  repeat split; try apply read_str_of_int.
  - unfold move_mouse. unfold bind at 1. rewrite Hd.
    apply (snd_run_unit env _ _ s1 c H1).
  - unfold Shell.words.
    replace (move_cmd disp x y)
      with (("DISPLAY=" ++ disp) ++ String " " ("xdotool" ++ String " "
             ("mousemove" ++ String " "
               (Text.str_of_int x ++ String " " (Text.str_of_int y)))))
      by (rewrite str_app_assoc; reflexivity).
    rewrite (split_word_then_blank _ _ Hsafe Hne).
    rewrite (split_word_then_blank "xdotool") by (reflexivity || discriminate).
    rewrite (split_word_then_blank "mousemove") by (reflexivity || discriminate).
    rewrite (split_word_then_blank (Text.str_of_int x))
      by (apply numeric_safe, str_of_int_numeric || apply str_of_int_nonempty).
    rewrite (split_last_word (Text.str_of_int y))
      by (apply numeric_safe, str_of_int_numeric || apply str_of_int_nonempty).
    reflexivity.
Qed.

Lemma move_mouse_command_words_witness :
  Shell.words (move_cmd ":0" (-5) 1080)
  = Some ["DISPLAY=:0"; "xdotool"; "mousemove"; "-5"; "1080"].
Proof.
  destruct (move_mouse_command_words Stub.env_ok (Stub.connected Stub.env_ok)
              {| transport_open := true |} ":0"
              (record (EvExec (probe_cmd ":0") 2) (Stub.connected Stub.env_ok))
              (-5) 1080 eq_refl eq_refl) as (_ & H & _).
  exact H.
Defined.

(** ** What [strip] removes *)

Lemma lstrip_split s :
  exists p, s = p ++ Text.lstrip s /\ all_space p = true.
Proof.
  induction s as [|c t (p & Hp & Ha)].
  - exists "". split; reflexivity.
  - cbn [Text.lstrip]. destruct (Text.is_space c) eqn:Hc.
    + exists (String c p). simpl. rewrite Hc, Ha. split; [now f_equal | reflexivity].
    + exists "". split; reflexivity.
Qed.

Lemma lstrip_start s : starts_with_space (Text.lstrip s) = false.
Proof.
  induction s as [|c t IH]; [reflexivity|].
  cbn [Text.lstrip]. destruct (Text.is_space c) eqn:Hc; [exact IH|].
  simpl. exact Hc.
Qed.

Lemma rstrip_split s :
  exists q, s = Text.rstrip s ++ q /\ all_space q = true.
Proof.
  induction s as [|c t (q & Hq & Ha)].
  - exists "". split; reflexivity.
  - cbn [Text.rstrip]. destruct (Text.rstrip t) as [|c' t'] eqn:Hr.
    + destruct (Text.is_space c) eqn:Hc.
      * exists (String c q). simpl in *. rewrite Hc, Ha. subst t.
        split; reflexivity.
      * exists q. simpl in *. subst t. split; [reflexivity | exact Ha].
    + exists q. split; [|exact Ha]. simpl. now f_equal.
Qed.

Lemma rstrip_end s : ends_with_space (Text.rstrip s) = false.
Proof.
  induction s as [|c t IH]; [reflexivity|].
  cbn [Text.rstrip]. destruct (Text.rstrip t) as [|c' t'] eqn:Hr.
  - destruct (Text.is_space c) eqn:Hc; [reflexivity|]. simpl. exact Hc.
  - exact IH.
Qed.

Lemma rstrip_start s :
  starts_with_space s = false -> starts_with_space (Text.rstrip s) = false.
Proof.
  destruct s as [|c t]; [reflexivity|].
  simpl starts_with_space. intros Hc.
  cbn [Text.rstrip]. destruct (Text.rstrip t); [rewrite Hc|]; simpl; exact Hc.
Qed.

Lemma strip_spec s :
  exists p q,
    s = p ++ Text.strip s ++ q
    /\ all_space p = true /\ all_space q = true
    /\ starts_with_space (Text.strip s) = false
    /\ ends_with_space (Text.strip s) = false.
Proof.
  destruct (lstrip_split s) as (p & Hp & Ha).
  destruct (rstrip_split (Text.lstrip s)) as (q & Hq & Hb).
  exists p, q. unfold Text.strip. repeat split; auto.
  - rewrite <- Hq. exact Hp.
  - apply rstrip_start, lstrip_start.
  - apply rstrip_end.
Qed.

(** X9: what [get_ip] returns on exit 0 is the stdout with nothing but
    whitespace cut from its two ends: the stdout is whitespace, then the
    result, then whitespace, and the result neither starts nor ends with a
    whitespace character.  (It is the empty string when the stdout is
    blank; no exception is raised then.) *)
Theorem get_ip_result_is_trimmed env s vm_name out err :
  subprocess_reply env (hist s) (ip_argv vm_name) 10 = ProcDone 0 out err ->
  exists ip p q,
    fst (get_ip env vm_name s) = Ret ip
    /\ out = p ++ ip ++ q
    /\ all_space p = true /\ all_space q = true
    /\ starts_with_space ip = false /\ ends_with_space ip = false.
Proof.
  intros H. destruct (strip_spec out) as (p & q & H1 & H2 & H3 & H4 & H5).
  exists (Text.strip out), p, q. repeat split; auto.
  unfold get_ip, bind, subprocess_run, ask. fold (ip_argv vm_name).
  now rewrite H.
Qed.

Lemma get_ip_result_is_trimmed_witness :
  exists ip p q,
    fst (get_ip StubMore.env_ip_padded "vm" (Stub.fresh StubMore.env_ip_padded))
    = Ret ip
    /\ Text.nl ++ " 192.168.64.5 " ++ Text.nl = p ++ ip ++ q
    /\ all_space p = true /\ all_space q = true
    /\ starts_with_space ip = false /\ ends_with_space ip = false.
Proof.
  exact (get_ip_result_is_trimmed StubMore.env_ip_padded
           (Stub.fresh StubMore.env_ip_padded) "vm"
           (Text.nl ++ " 192.168.64.5 " ++ Text.nl) "" eq_refl).
Defined.

(** ** What [is_running] looks for *)

Lemma startswith_split x h :
  Text.startswith x h = true -> exists q, h = x ++ q.
Proof.
  revert h. induction x as [|a x IH]; intros h H.
  - exists h. reflexivity.
  - destruct h as [|b h]; [discriminate|]. simpl in H.
    apply andb_true_iff in H. destruct H as [Hab Hx].
    apply Ascii.eqb_eq in Hab. subst b.
    destruct (IH h Hx) as (q & ->). exists q. reflexivity.
Qed.

Lemma contains_split x h :
  Text.contains x h = true -> exists p q, h = p ++ x ++ q.
Proof.
  induction h as [|b h IH]; intros H.
  - simpl in H. rewrite orb_false_r in H.
    destruct (startswith_split x "" H) as (q & Hq). exists "", q. exact Hq.
  - cbn [Text.contains] in H. apply orb_true_iff in H. destruct H as [H|H].
    + destruct (startswith_split x _ H) as (q & Hq). exists "", q. exact Hq.
    + destruct (IH H) as (p & q & ->). exists (String b p), q. reflexivity.
Qed.

Lemma lower_app a b : Text.lower (a ++ b) = Text.lower a ++ Text.lower b.
Proof. induction a as [|c a IH]; simpl; [reflexivity | now rewrite IH]. Qed.

Lemma lower_split s :
  forall a b, Text.lower s = a ++ b ->
  exists a' b', s = a' ++ b' /\ Text.lower a' = a /\ Text.lower b' = b.
Proof.
  induction s as [|c s IH]; intros a b H.
  - destruct a; [|discriminate]. simpl in H. subst b.
    exists "", "". repeat split.
  - destruct a as [|x a].
    + simpl in H. exists "", (String c s). repeat split. now rewrite <- H.
    + simpl in H. injection H as Hx Hs.
      destruct (IH a b Hs) as (a' & b' & -> & Ha & Hb).
      exists (String c a'), b'. simpl. rewrite Ha, Hx. repeat split. exact Hb.
Qed.

(** X10: [is_running] looks for the word anywhere and in any mix of
    cases.  When the status query completes, [is_running] returns [True]
    if and only if the stdout can be cut into three parts whose middle one
    is ["started"] up to the case of its letters; so an output such as
    [not started] or [Restarted] also counts as running. *)
Theorem is_running_true_iff env s vm_name returncode out err :
  subprocess_reply env (hist s) (status_argv vm_name) 10
  = ProcDone returncode out err ->
  (fst (is_running env vm_name s) = Ret true
   <-> exists p w q, out = p ++ w ++ q /\ Text.lower w = "started").
Proof.
  intros H. unfold is_running, bind, subprocess_run, ask.
  fold (status_argv vm_name). rewrite H. simpl fst. split.
  - intros Hc. injection Hc as Hc.
    destruct (contains_split _ _ Hc) as (p & q & Hpq).
    destruct (lower_split out p _ Hpq) as (p' & r & -> & Hp & Hr).
    destruct (lower_split r "started" q Hr) as (w & q' & -> & Hw & Hq).
    exists p', w, q'. split; [reflexivity | exact Hw].
  - intros (p & w & q & -> & Hw).
    rewrite !lower_app, Hw. now rewrite contains_app.
Qed.

Lemma is_running_true_iff_witness :
  fst (is_running StubMore.env_restarted "vm" (Stub.fresh StubMore.env_restarted))
  = Ret true.
Proof.
  apply (is_running_true_iff StubMore.env_restarted
           (Stub.fresh StubMore.env_restarted) "vm" 0
           ("VM is reSTARTed" ++ Text.nl) "" eq_refl).
  exists "VM is re", "STARTed", Text.nl. split; reflexivity.
Defined.

(** ** start *)

(** X11: [start] runs one local process, [utmctl start vm_name], with a
    timeout of 30 seconds, touches neither the controller nor the remote
    machine, and never raises [VMError]: it returns exactly when the
    process exits 0, and otherwise raises a library exception
    ([CalledProcessError] for a non-zero exit). *)
Theorem start_spec env s vm_name :
  snd (start env vm_name s)
  = record (EvSubprocess ["utmctl"; "start"; vm_name] 30) s
  /\ (forall msg, fst (start env vm_name s) <> Raise (VMError msg))
  /\ (fst (start env vm_name s) = Ret tt
      <-> exists out err,
          subprocess_reply env (hist s) ["utmctl"; "start"; vm_name] 30
          = ProcDone 0 out err)
  /\ (forall returncode out err,
        subprocess_reply env (hist s) ["utmctl"; "start"; vm_name] 30
        = ProcDone returncode out err ->
        returncode <> 0%Z ->
        fst (start env vm_name s) = Raise (Foreign "CalledProcessError")).
Proof.
  unfold start, bind, subprocess_run, ask.
  destruct (subprocess_reply env (hist s) ["utmctl"; "start"; vm_name] 30)
    as [rc out err|e]; simpl.
  - destruct (rc =? 0)%Z eqn:Hrc; simpl.
    + apply Z.eqb_eq in Hrc. subst rc.
      repeat split; try discriminate; eauto.
      intros rc' o e H Hne. injection H as <- _ _. congruence.
    + apply Z.eqb_neq in Hrc.
      repeat split; try discriminate.
      intros (o & e & H). injection H as -> _ _. congruence.
  - repeat split; try discriminate.
    intros (o & e' & H). discriminate.
Qed.

(** ** The temporary file of a screenshot *)







Lemma screenshot_returns_image_witness :
  fst (screenshot StubMore.env_two_lines (Stub.connected StubMore.env_two_lines))
  = Ret [x68; x65; x6c; x6c; x6f].
Proof.
  apply (screenshot_returns_image StubMore.env_two_lines
           (Stub.connected StubMore.env_two_lines)
           {| transport_open := true |} ":0"
           (record (EvExec (probe_cmd ":0") 2)
              (record EvTime (Stub.connected StubMore.env_two_lines)))
           ("aGVs" ++ Text.nl ++ "bG8=" ++ Text.nl) "" [x68; x65; x6c; x6c; x6f]
           eq_refl eq_refl eq_refl eq_refl eq_refl).
Defined.

(** ** No display is remembered between calls *)

Lemma extends_ret {A} (a : A) : extends_hist (ret a).
Proof. intros s. exists []. simpl. now rewrite app_nil_r. Qed.

Lemma extends_raise {A} (e : exn) : extends_hist (@raise A e).
Proof. intros s. exists []. simpl. now rewrite app_nil_r. Qed.

Lemma extends_ask {A} ev (answer : list Event -> A) : extends_hist (ask ev answer).
Proof. intros s. exists [ev]. reflexivity. Qed.

Lemma extends_bind {A B} (m : M A) (k : A -> M B) :
  extends_hist m -> (forall a, extends_hist (k a)) -> extends_hist (bind m k).
Proof.
  intros Hm Hk s. unfold bind. destruct (Hm s) as (l & Hl).
  destruct (m s) as [[a|e] s']; simpl in *.
  - destruct (Hk a s') as (l' & Hl'). exists (l ++ l')%list.
    now rewrite Hl', Hl, app_assoc.
  - now exists l.
Qed.

Lemma extends_for_range n (body : M unit) :
  extends_hist body -> extends_hist (for_range n body).
Proof.
  intros Hb. induction n as [|n IH]; simpl.
  - apply extends_ret.
  - apply extends_bind; auto.
Qed.

Lemma extends__run env cmd t : extends_hist (_run env cmd t).
Proof.
  unfold _run. apply extends_bind.
  - intros s. exists []. simpl. now rewrite app_nil_r.
  - intros [c|]; [|apply extends_raise].
    apply extends_bind; [apply extends_ask|].
    intros [code out err|e]; [|apply extends_raise].
    destruct (negb (code =? 0)%Z); [apply extends_raise | apply extends_ret].
Qed.

Lemma extends_run_unit env cmd t : extends_hist (_run env cmd t ;; ret tt).
Proof. apply extends_bind; [apply extends__run | intros; apply extends_ret]. Qed.

Lemma get_display_probes_first env s c :
  ssh (self s) = Some c ->
  exists l, hist (snd (_get_display env s)) = (hist s ++ probe_event ":0" :: l)%list.
Proof.
  intros Hs. rewrite (_get_display_connected env s c Hs). cbv zeta.
  destruct (exec_reply env (hist s) c (probe_cmd ":0") 2) as [c0 o0 e0|x0];
    [destruct (c0 =? 0)%Z;
     [|destruct (exec_reply env _ c (probe_cmd ":1") 2) as [c1 o1 e1|x1];
       [destruct (c1 =? 0)%Z|]]|];
    simpl; rewrite <- ?app_assoc; simpl; eauto.
Qed.

Lemma probes_first_bind {A} env (k : string -> M A) s c :
  ssh (self s) = Some c ->
  (forall disp, extends_hist (k disp)) ->
  exists l,
    hist (snd (bind (_get_display env) k s))
    = (hist s ++ probe_event ":0" :: l)%list.
Proof.
  intros Hs Hk. destruct (get_display_probes_first env s c Hs) as (l & Hl).
  unfold bind. destruct (_get_display env s) as [[disp|e] s1]; simpl in *.
  - destruct (Hk disp s1) as (l' & Hl'). exists (l ++ l')%list.
    rewrite Hl', Hl, <- app_assoc. reflexivity.
  - now exists l.
Qed.

(** X13: no display is remembered from one call to the next.  On a
    controller whose session field holds a client, every call of
    [move_mouse], [click], [type_text] and [press_key] begins by sending the
    geometry probe of [":0"] again, and [screenshot] does so right after
    reading the clock, before any command of its own. *)
Theorem actions_probe_first env s c :
  ssh (self s) = Some c ->
  (forall x y, exists l,
      hist (snd (move_mouse env x y s)) = (hist s ++ probe_event ":0" :: l)%list)
  /\ (forall button clicks, exists l,
      hist (snd (click env button clicks s))
      = (hist s ++ probe_event ":0" :: l)%list)
  /\ (forall text, exists l,
      hist (snd (type_text env text s)) = (hist s ++ probe_event ":0" :: l)%list)
  /\ (forall key, exists l,
      hist (snd (press_key env key s)) = (hist s ++ probe_event ":0" :: l)%list)
  /\ (exists l,
      hist (snd (screenshot env s))
      = (hist s ++ EvTime :: probe_event ":0" :: l)%list).
Proof.
  intros Hs. repeat split; intros.
  - apply (probes_first_bind env _ s c Hs). intros. apply extends_run_unit.
  - apply (probes_first_bind env _ s c Hs). intros.
    apply extends_for_range, extends_run_unit.
  - apply (probes_first_bind env _ s c Hs). intros. apply extends_run_unit.
  - apply (probes_first_bind env _ s c Hs). intros. apply extends_run_unit.
  - unfold screenshot. unfold bind at 1. unfold ask.
    destruct (probes_first_bind env
                (fun disp =>
                   b64 <- _run env (screenshot_cmd disp (time_reply env (hist s))) 15 ;;
                   match Base64.b64decode (Text.strip b64) with
                   | inr bytes => ret bytes
                   | inl e => raise (Foreign e)
                   end)
                (record EvTime s) c Hs) as (l & Hl).
    + intros disp. apply extends_bind; [apply extends__run|]. intros b64.
      destruct (Base64.b64decode (Text.strip b64));
        [apply extends_raise | apply extends_ret].
    + exists l. rewrite Hl. simpl. now rewrite <- app_assoc.
Qed.

Lemma actions_probe_first_witness :
  exists l,
    hist (snd (press_key Stub.env_denied "Return" (Stub.connected Stub.env_denied)))
    = (hist (Stub.connected Stub.env_denied) ++ probe_event ":0" :: l)%list.
Proof.
  destruct (actions_probe_first Stub.env_denied (Stub.connected Stub.env_denied)
              {| transport_open := true |} eq_refl) as (_ & _ & _ & H & _).
  apply H.
Defined.
